(** * The Glue DB-API cursor (dbt/adapters/glue/gluedbapi/cursor.py)

    A shallow embedding of [GlueCursor] and [GlueDictCursor]: the cursor is
    a record, every method is a function from the cursor to the cursor it
    leaves behind, the log records it emitted and either a returned value
    or the exception it raised.

    Conventions of the embedding.
    - A Python string is a [string]; every character stands for one code
      point (below 256).
    - A Python value that comes out of [json.loads], and [None], is a
      [pyval]; [PNone] is both JSON [null] and Python [None].  Numbers are
      integers; a payload with fractional numbers is outside the model.
    - A dict read from JSON is an association list in insertion order,
      looked up from the front.
    - [json.loads], [textwrap.dedent], the remote statement service
      ([GlueStatement]) and [AdapterResponse] are not part of cursor.py:
      they are parameters. *)

From Stdlib Require Import String Ascii List ZArith Bool Arith Lia.
Import ListNotations.

Local Open Scope string_scope.
Local Open Scope list_scope.

(** ** Python string operations used by the cursor *)

Module PyStr.

Definition nl : ascii := ascii_of_nat 10.

(** ["*/\n"], the end of a comment header. *)
Definition header_end : string := String "*" (String "/" (String nl EmptyString)).

(** [s[n:]] *)
Fixpoint drop (n : nat) (s : string) : string :=
  match n, s with
  | O, _ => s
  | S _, EmptyString => EmptyString
  | S k, String _ r => drop k r
  end.

(** [s[0:n]] *)
Fixpoint take (n : nat) (s : string) : string :=
  match n, s with
  | O, _ => EmptyString
  | S _, EmptyString => EmptyString
  | S k, String a r => String a (take k r)
  end.

(** [s.find(sub)] as an optional position: the lowest index where [sub]
    occurs. *)
Definition find_opt (sub s : string) : option nat := String.index 0 sub s.

(** [s.find(sub)]: the lowest index, or -1. *)
Definition find (sub s : string) : Z :=
  match find_opt sub s with
  | Some i => Z.of_nat i
  | None => (-1)%Z
  end.

(** [sub in s] *)
Definition contains (sub s : string) : bool :=
  match find_opt sub s with
  | Some _ => true
  | None => false
  end.

(** [s.replace(old, new)] for a non-empty [old]: the occurrences are
    taken from the left and do not overlap.  [skip] counts the
    characters of a matched occurrence still to be dropped. *)
Fixpoint replace_from (old new : string) (skip : nat) (s : string) : string :=
  match s with
  | EmptyString => EmptyString
  | String a r =>
      match skip with
      | S k => replace_from old new k r
      | O =>
          if String.prefix old s
          then new ++ replace_from old new (String.length old - 1) r
          else String a (replace_from old new 0 r)
      end
  end.

Definition replace (old new s : string) : string := replace_from old new 0 s.

(** The characters [str.strip()] removes (code points below 256). *)
Definition is_space (a : ascii) : bool :=
  let n := nat_of_ascii a in
  (((9 <=? n) && (n <=? 13)) || ((28 <=? n) && (n <=? 32))
   || (n =? 133) || (n =? 160))%nat.

Fixpoint lstrip (s : string) : string :=
  match s with
  | EmptyString => EmptyString
  | String a r => if is_space a then lstrip r else s
  end.

Fixpoint rstrip (s : string) : string :=
  match s with
  | EmptyString => EmptyString
  | String a r =>
      match rstrip r with
      | EmptyString => if is_space a then EmptyString else String a EmptyString
      | r' => String a r'
      end
  end.

(** [s.strip()] *)
Definition strip (s : string) : string := rstrip (lstrip s).

(** [s.split(c)] for a separator of one character: never empty. *)
Fixpoint split (c : ascii) (s : string) : list string :=
  match s with
  | EmptyString => [EmptyString]
  | String a r =>
      if Ascii.eqb a c then EmptyString :: split c r
      else
        match split c r with
        | h :: t => String a h :: t
        | [] => [String a EmptyString]
        end
  end.

End PyStr.

(** ** Python values *)

#[warnings="-register-all"]
Inductive pyval : Type :=
| PNone
| PBool (b : bool)
| PInt (n : Z)
| PStr (s : string)
| PList (items : list pyval)
| PDict (fields : list (string * pyval)).

(** What an f-string or a log call is made of: literal text and
    interpolated values. *)
Inductive frag : Type :=
| Lit (text : string)
| Fmt (v : pyval).

Definition message := list frag.

(** The exceptions the cursor raises or lets through. *)
Inductive exn : Type :=
| Exception (msg : string)
| InternalException (msg : option string)
| DatabaseException (msg : message)
| StopIteration
| AttributeError
| TypeError
| ValueError
| IndexError
| KeyError
| External (name : string).

Inductive result (A : Type) : Type :=
| Return (a : A)
| Raise (e : exn).
Arguments Return {A} a.
Arguments Raise {A} e.

Module Py.

(** [bool(v)] *)
Definition truthy (v : pyval) : bool :=
  match v with
  | PNone => false
  | PBool b => b
  | PInt n => negb (Z.eqb n 0)
  | PStr EmptyString => false
  | PStr _ => true
  | PList [] => false
  | PList _ => true
  | PDict [] => false
  | PDict _ => true
  end.

Fixpoint lookup (k : string) (fields : list (string * pyval)) : option pyval :=
  match fields with
  | [] => None
  | (k', v) :: rest => if String.eqb k' k then Some v else lookup k rest
  end.

(** [v.get(k, default)] for a text key: only a dict has [get]. *)
Definition get (v : pyval) (k : string) (default : pyval) : result pyval :=
  match v with
  | PDict fields =>
      match lookup k fields with
      | Some x => Return x
      | None => Return default
      end
  | _ => Raise AttributeError
  end.

(** [v.get(k, default)] for a key that is itself a value: a list or a
    dict cannot be hashed; a key that is not text is never found in a
    dict read from JSON. *)
Definition get_key (v : pyval) (k : pyval) (default : pyval) : result pyval :=
  match v with
  | PDict fields =>
      match k with
      | PStr s => get v s default
      | PList _ | PDict _ => Raise TypeError
      | _ => Return default
      end
  | _ => Raise AttributeError
  end.

(** [v[k]] for a text key. *)
Definition item (v : pyval) (k : string) : result pyval :=
  match v with
  | PDict fields =>
      match lookup k fields with
      | Some x => Return x
      | None => Raise KeyError
      end
  | _ => Raise TypeError
  end.

(** [v[i]] for an index [i >= 0]. *)
Definition index (v : pyval) (i : nat) : result pyval :=
  match v with
  | PList items =>
      match nth_error items i with
      | Some x => Return x
      | None => Raise IndexError
      end
  | PStr s =>
      match String.get i s with
      | Some a => Return (PStr (String a EmptyString))
      | None => Raise IndexError
      end
  | PDict _ => Raise KeyError
  | _ => Raise TypeError
  end.

(** What [for x in v] walks through. *)
Definition iter (v : pyval) : result (list pyval) :=
  match v with
  | PList items => Return items
  | PStr s => Return (map (fun a => PStr (String a EmptyString)) (list_ascii_of_string s))
  | PDict fields => Return (map (fun kv => PStr (fst kv)) fields)
  | _ => Raise TypeError
  end.

(** [v == s] for a text constant [s]. *)
Definition eq_str (v : pyval) (s : string) : bool :=
  match v with
  | PStr t => String.eqb t s
  | _ => false
  end.

End Py.

(** ** The cursor object *)

(** The connection the cursor points back to; the cursor only reads its
    client handle and its session identifier. *)
Record GlueConnection : Type := {
  client : string;
  session_id : pyval
}.

(** [GlueStatement(client=..., session_id=..., code=...)] *)
Record GlueStatement : Type := {
  stmt_client : string;
  stmt_session_id : pyval;
  stmt_code : string
}.

Module GlueCursorState.
Definition WAITING : string := "WAITING".
Definition RUNNING : string := "RUNNING".
Definition AVAILABLE : string := "AVAILABLE".
Definition CANCELLING : string := "CANCELLING".
Definition CANCELLED : string := "CANCELLED".
Definition ERROR : string := "ERROR".
End GlueCursorState.

(** The attributes of a [GlueCursor].  [_it] and [statement] are not set by
    [__init__]: [None] stands for "not set yet" as well as for the value
    [None] ([_it] is set by every [execute] before [response] can become
    truthy, so [fetchone] never reads it unset). *)
Record GlueCursor : Type := {
  name : string;
  _connection : GlueConnection;
  state : pyval;
  _is_running : bool;
  statement_id : pyval;
  code : pyval;
  sql : pyval;
  response : pyval;
  _closed : bool;
  _it : option nat;
  statement : option GlueStatement
}.

(** [GlueCursor(connection)]; [uuid] is the identifier drawn by
    [uuid.uuid4()]. *)
Definition __init__ (uuid : string) (connection : GlueConnection) : GlueCursor :=
  {| name := uuid; _connection := connection; state := PNone;
     _is_running := false; statement_id := PNone; code := PNone;
     sql := PNone; response := PNone; _closed := false; _it := None;
     statement := None |}.

Definition set_state (v : pyval) (c : GlueCursor) : GlueCursor :=
  {| name := name c; _connection := _connection c; state := v;
     _is_running := _is_running c; statement_id := statement_id c;
     code := code c; sql := sql c; response := response c;
     _closed := _closed c; _it := _it c; statement := statement c |}.

Definition set_is_running (b : bool) (c : GlueCursor) : GlueCursor :=
  {| name := name c; _connection := _connection c; state := state c;
     _is_running := b; statement_id := statement_id c;
     code := code c; sql := sql c; response := response c;
     _closed := _closed c; _it := _it c; statement := statement c |}.

Definition set_code (v : pyval) (c : GlueCursor) : GlueCursor :=
  {| name := name c; _connection := _connection c; state := state c;
     _is_running := _is_running c; statement_id := statement_id c;
     code := v; sql := sql c; response := response c;
     _closed := _closed c; _it := _it c; statement := statement c |}.

Definition set_sql (v : pyval) (c : GlueCursor) : GlueCursor :=
  {| name := name c; _connection := _connection c; state := state c;
     _is_running := _is_running c; statement_id := statement_id c;
     code := code c; sql := v; response := response c;
     _closed := _closed c; _it := _it c; statement := statement c |}.

Definition set_response (v : pyval) (c : GlueCursor) : GlueCursor :=
  {| name := name c; _connection := _connection c; state := state c;
     _is_running := _is_running c; statement_id := statement_id c;
     code := code c; sql := sql c; response := v;
     _closed := _closed c; _it := _it c; statement := statement c |}.

Definition set_closed (b : bool) (c : GlueCursor) : GlueCursor :=
  {| name := name c; _connection := _connection c; state := state c;
     _is_running := _is_running c; statement_id := statement_id c;
     code := code c; sql := sql c; response := response c;
     _closed := b; _it := _it c; statement := statement c |}.

Definition set_it (i : option nat) (c : GlueCursor) : GlueCursor :=
  {| name := name c; _connection := _connection c; state := state c;
     _is_running := _is_running c; statement_id := statement_id c;
     code := code c; sql := sql c; response := response c;
     _closed := _closed c; _it := i; statement := statement c |}.

Definition set_statement (s : option GlueStatement) (c : GlueCursor) : GlueCursor :=
  {| name := name c; _connection := _connection c; state := state c;
     _is_running := _is_running c; statement_id := statement_id c;
     code := code c; sql := sql c; response := response c;
     _closed := _closed c; _it := _it c; statement := s |}.

(** ** Methods as computations on the cursor

    A method run leaves a cursor behind, emits log records and returns a
    value or raises. *)

Record Out (A : Type) : Type := mkOut {
  after : GlueCursor;
  logs : list message;
  res : result A
}.
Arguments mkOut {A} after logs res.
Arguments after {A} o.
Arguments logs {A} o.
Arguments res {A} o.

Definition M (A : Type) : Type := GlueCursor -> Out A.

Definition ret {A} (a : A) : M A := fun c => mkOut c [] (Return a).

Definition raise {A} (e : exn) : M A := fun c => mkOut c [] (Raise e).

Definition lift {A} (r : result A) : M A := fun c => mkOut c [] r.

Definition bind {A B} (m : M A) (k : A -> M B) : M B :=
  fun c =>
    match m c with
    | mkOut c1 l1 (Return a) =>
        match k a c1 with
        | mkOut c2 l2 r => mkOut c2 (l1 ++ l2) r
        end
    | mkOut c1 l1 (Raise e) => mkOut c1 l1 (Raise e)
    end.

(** [try: m except Exception as ex: h ex]: whatever [m] changed before it
    raised stays changed. *)
Definition try_except {A} (m : M A) (h : exn -> M A) : M A :=
  fun c =>
    match m c with
    | mkOut c1 l1 (Return a) => mkOut c1 l1 (Return a)
    | mkOut c1 l1 (Raise e) =>
        match h e c1 with
        | mkOut c2 l2 r => mkOut c2 (l1 ++ l2) r
        end
    end.

Definition self : M GlueCursor := fun c => mkOut c [] (Return c).

Definition update (f : GlueCursor -> GlueCursor) : M unit :=
  fun c => mkOut (f c) [] (Return tt).

(** [logger.debug(msg)] *)
Definition debug (msg : message) : M unit := fun c => mkOut c [msg] (Return tt).

Declare Scope cursor_scope.
Delimit Scope cursor_scope with cursor.
Notation "x <- m ;; k" := (bind m (fun x => k))
  (at level 61, m at next level, right associativity) : cursor_scope.
Notation "m ;; k" := (bind m (fun _ => k))
  (at level 61, right associativity) : cursor_scope.
Local Open Scope cursor_scope.

(** A [for] loop that collects one value per element and stops at the
    first exception. *)
Fixpoint for_each {A B} (xs : list A) (body : A -> M B) : M (list B) :=
  match xs with
  | [] => ret []
  | x :: rest =>
      y <- body x ;;
      ys <- for_each rest body ;;
      ret (y :: ys)
  end.

(** The script marker and the texts of the wrapper. *)
Definition script_marker : string := "--pyspark".
Definition wrapper_open : string := "SqlWrapper2.execute('''".
Definition wrapper_close : string := "''')".
Definition not_a_view : string := "is not a view".

(** The literal text [r["State"]] that [get_response] passes as message. *)
Definition response_message : string :=
  let q := String (ascii_of_nat 34) EmptyString in
  ("r[" ++ q ++ "State" ++ q ++ "]")%string.

(** [v.strip()]: only text has [strip]. *)
Definition py_strip (v : pyval) : result string :=
  match v with
  | PStr s => Return (PyStr.strip s)
  | _ => Raise AttributeError
  end.

(** [v.find(sub)]: only text has [find]. *)
Definition py_find (v : pyval) (sub : string) : result Z :=
  match v with
  | PStr s => Return (PyStr.find sub s)
  | _ => Raise AttributeError
  end.

(** [chunks[0]] *)
Definition first_chunk (chunks : list string) : result string :=
  match chunks with
  | h :: _ => Return h
  | [] => Raise IndexError
  end.

(** [text + v] for a text on the left. *)
Definition str_add (text : string) (v : pyval) : result string :=
  match v with
  | PStr s => Return (text ++ s)%string
  | _ => Raise TypeError
  end.

(** The keys of a dict built by the program itself: [None], booleans,
    integers and text can be hashed, and [True == 1], [False == 0]. *)
Definition key_eqb (k1 k2 : pyval) : bool :=
  match k1, k2 with
  | PNone, PNone => true
  | PStr a, PStr b => String.eqb a b
  | PBool a, PBool b => Bool.eqb a b
  | PInt a, PInt b => Z.eqb a b
  | PBool a, PInt b | PInt b, PBool a => Z.eqb (if a then 1 else 0) b
  | _, _ => false
  end.

Definition hashable (k : pyval) : bool :=
  match k with
  | PList _ | PDict _ => false
  | _ => true
  end.

(** A dict keyed by values, in insertion order. *)
Definition pydict : Type := list (pyval * pyval).

(** [d[k] = v] on a dict that is being built: an existing key keeps its
    place. *)
Fixpoint dict_store (d : pydict) (k v : pyval) : pydict :=
  match d with
  | [] => [(k, v)]
  | (k', v') :: rest =>
      if key_eqb k' k then (k', v) :: rest else (k', v') :: dict_store rest k v
  end.

Definition dict_setitem (d : pydict) (k v : pyval) : result pydict :=
  if hashable k then Return (dict_store d k v) else Raise TypeError.

(** [enumerate(xs)] *)
Fixpoint enumerate_from {A} (i : nat) (xs : list A) : list (nat * A) :=
  match xs with
  | [] => []
  | x :: rest => (i, x) :: enumerate_from (S i) rest
  end.

Definition enumerate {A} (xs : list A) : list (nat * A) := enumerate_from 0 xs.

Section Cursor.

(** [json.loads] on a text: a value, or the exception it raises. *)
Variable json_loads : string -> result pyval.

(** [textwrap.dedent] *)
Variable dedent : string -> string.

(** [AdapterResponse(_message=..., code=..., **r)] *)
Variable AdapterResponse : string -> pyval -> pyval -> result pyval.

Definition connection (c : GlueCursor) : GlueConnection := _connection c.

Definition closed (c : GlueCursor) : bool := _closed c.

(** The [rowcount] property. *)
Definition rowcount : M pyval :=
  c <- self ;;
  if Py.truthy (response c)
  then lift (Py.get (response c) "rowcount" PNone)
  else ret PNone.

Definition _pre : M unit :=
  update (set_it None) ;;
  update (set_is_running true) ;;
  update (set_response PNone).

Definition _post : M unit :=
  update (set_it None) ;;
  update (set_is_running false).

(** What [remove_comments_header] returns or raises: [sql[0:2]],
    [sql.index("*/\n")] and [sql[end + 3:]]. *)
Definition header_removed (text : string) : result string :=
  if String.eqb (PyStr.take 2 text) "/*"
  then
    match PyStr.find_opt PyStr.header_end text with
    | Some e => Return (PyStr.drop (e + 3) text)
    | None => Raise ValueError
    end
  else Return text.

Definition remove_comments_header (text : string) : M string :=
  debug [Lit "GlueCursor remove_comments_header called"] ;;
  lift (header_removed text).

(** The submission code built from the text left after the header. *)
Definition submission_code (text : string) : string :=
  if PyStr.contains script_marker text
  then dedent (PyStr.replace script_marker EmptyString text)
  else (wrapper_open ++ text ++ wrapper_close)%string.

(** [output.get("Data", {}).get("TextPlain", None).strip()] *)
Definition text_plain (output : pyval) : result string :=
  match Py.get output "Data" (PDict []) with
  | Return d =>
      match Py.get d "TextPlain" PNone with
      | Return t => py_strip t
      | Raise e => Raise e
      end
  | Raise e => Raise e
  end.

(** [response.get("Statement", {}).get(key, default)] *)
Definition statement_field (r : pyval) (key : string) (default : pyval) : result pyval :=
  match Py.get r "Statement" (PDict []) with
  | Return st => Py.get st key default
  | Raise e => Raise e
  end.

(** The text of the failure reported for a statement that did not end
    with status "ok". *)
Definition not_ok_message (c : GlueCursor) (status output_name output_value : pyval) : message :=
  [Lit "Glue returned `"; Fmt status; Lit "` for statement "; Fmt (statement_id c);
   Lit " for code "; Fmt (code c); Lit ", "; Fmt output_name; Lit ": "; Fmt output_value].

Definition cancelled_message (c : GlueCursor) : message :=
  [Lit "Statement "; Fmt (session_id (connection c)); Lit ".";
   Fmt (statement_id c); Lit " cancelled."].

(** The branch of [execute] for status "ok": parse the whole text, then
    its first line. *)
Definition record_payload (output : pyval) : M unit :=
  try_except
    (text <- lift (text_plain output) ;;
     v <- lift (json_loads text) ;;
     update (set_response v))
    (fun ex =>
       text <- lift (text_plain output) ;;
       let chunks := PyStr.split PyStr.nl text in
       try_except
         (chunk <- lift (first_chunk chunks) ;;
          v <- lift (json_loads chunk) ;;
          update (set_response v))
         (fun ex =>
            chunk <- lift (first_chunk chunks) ;;
            v <- lift (json_loads chunk) ;;
            msg <- lift (str_add "Could not parse " v) ;;
            debug [Lit msg])).

(** The branch of [execute] for any other status. *)
Definition report_not_ok (status output : pyval) : M unit :=
  ev <- lift (Py.get output "ErrorValue" PNone) ;;
  pos <- lift (py_find ev not_a_view) ;;
  en <- lift (Py.get output "ErrorName" PNone) ;;
  c <- self ;;
  if negb (Z.eqb pos 0)
  then debug (not_ok_message c status en ev)
  else raise (DatabaseException (not_ok_message c status en ev)).

(** [if self.state == GlueCursorState.AVAILABLE: ...] in [execute]; [r] is
    the answer of the statement service. *)
Definition on_available (r : pyval) : M unit :=
  c <- self ;;
  if Py.eq_str (state c) GlueCursorState.AVAILABLE
  then
    _post ;;
    output <- lift (statement_field r "Output" (PDict [])) ;;
    status <- lift (Py.get output "Status" PNone) ;;
    if Py.eq_str status "ok"
    then record_payload output
    else report_not_ok status output
  else ret tt.

(** [if self.state == GlueCursorState.ERROR: ...] in [execute]. *)
Definition on_error : M unit :=
  c <- self ;;
  if Py.eq_str (state c) GlueCursorState.ERROR
  then
    _post ;;
    update (set_state (PStr "error")) ;;
    raise (InternalException None)
  else ret tt.

(** [if self.state in [CANCELLED, CANCELLING]: ...] in [execute]. *)
Definition on_cancelled : M unit :=
  c <- self ;;
  if Py.eq_str (state c) GlueCursorState.CANCELLED
     || Py.eq_str (state c) GlueCursorState.CANCELLING
  then
    _post ;;
    c <- self ;;
    raise (DatabaseException (cancelled_message c))
  else ret tt.

(** What [execute] does once the answer [r] of the statement service is
    in: the three tests on the state, then [return self.response]. *)
Definition settle (r : pyval) : M pyval :=
  on_available r ;;
  on_error ;;
  on_cancelled ;;
  c <- self ;;
  ret (response c).

(** [execute(sql, bindings=None)]; [bindings] is never read.  [remote]
    is what [self.statement.execute()] gives back for this call. *)
Definition execute (text : string) (remote : result pyval) : M pyval :=
  debug [Lit "GlueCursor execute called"] ;;
  c <- self ;;
  if closed c then raise (Exception "CursorClosed") else
  if _is_running c then raise (InternalException (Some "CursorAlreadyRunning")) else
  stripped <- remove_comments_header text ;;
  update (set_sql (PStr stripped)) ;;
  _pre ;;
  let submitted := submission_code stripped in
  update (set_code (PStr submitted)) ;;
  c <- self ;;
  update (set_statement
            (Some {| stmt_client := client (connection c);
                     stmt_session_id := session_id (connection c);
                     stmt_code := submitted |})) ;;
  debug [Lit ("client : " ++ submitted)%string] ;;
  r <- lift remote ;;
  debug [Fmt r] ;;
  st <- lift (statement_field r "State" (PStr GlueCursorState.WAITING)) ;;
  update (set_state st) ;;
  settle r.

(** The [columns] property. *)
Definition columns : M pyval :=
  c <- self ;;
  if Py.truthy (response c)
  then
    d <- lift (Py.get (response c) "description" PNone) ;;
    cols <- lift (Py.iter d) ;;
    names <- for_each cols (fun column => lift (Py.get column "name" PNone)) ;;
    ret (PList names)
  else ret PNone.

(** The inner loop of [fetchall] and [fetchone]: one value per column,
    in the order of [columns]. *)
Definition project_row (item : pyval) : M pyval :=
  names <- columns ;;
  cols <- lift (Py.iter names) ;;
  record <- for_each cols
    (fun column =>
       d <- lift (Py.get item "data" (PDict [])) ;;
       lift (Py.get_key d column PNone)) ;;
  ret (PList record).

Definition fetchall : M pyval :=
  debug [Lit "GlueCursor fetchall called"] ;;
  c <- self ;;
  if closed c then raise (Exception "CursorClosed") else
  if Py.truthy (response c)
  then
    rs <- lift (Py.get (response c) "results" (PList [])) ;;
    items <- lift (Py.iter rs) ;;
    records <- for_each items project_row ;;
    ret (PList records)
  else ret PNone.

(** [not self._it] *)
Definition it_unset (i : option nat) : bool :=
  match i with
  | None | Some O => true
  | Some (S _) => false
  end.

Definition it_value (i : option nat) : nat :=
  match i with
  | Some n => n
  | None => 0
  end.

(** The [try] block of [fetchone]: index the results, project the row,
    move the index forward. *)
Definition fetchone_row : M pyval :=
  c <- self ;;
  rs <- lift (Py.get (response c) "results" PNone) ;;
  item <- lift (Py.index rs (it_value (_it c))) ;;
  record <- project_row item ;;
  c <- self ;;
  update (set_it (Some (it_value (_it c) + 1))) ;;
  ret record.

Definition fetchone : M pyval :=
  debug [Lit "GlueCursor fetchone called"] ;;
  c <- self ;;
  if closed c then raise (Exception "CursorClosed") else
  if Py.truthy (response c)
  then
    (if it_unset (_it c) then update (set_it (Some 0)) else ret tt) ;;
    try_except fetchone_row
      (fun _ =>
         update (set_it None) ;;
         ret PNone)
  else ret PNone.

Definition __next__ : M pyval :=
  item <- fetchone ;;
  if negb (Py.truthy item) then raise StopIteration else ret item.

Definition description : M pyval :=
  debug [Lit "GlueCursor get_columns_in_relation called"] ;;
  c <- self ;;
  if Py.truthy (response c)
  then
    d <- lift (Py.get (response c) "description" (PList [])) ;;
    cols <- lift (Py.iter d) ;;
    pairs <- for_each cols
      (fun col =>
         n <- lift (Py.item col "name") ;;
         t <- lift (Py.item col "type") ;;
         ret (PList [n; t])) ;;
    ret (PList pairs)
  else ret PNone.

(** [get_response()]; [status] is what [self.statement._get_statement()]
    gives back for this call. *)
Definition get_response (status : result pyval) : M pyval :=
  debug [Lit "GlueCursor get_columns_in_relation called"] ;;
  c <- self ;;
  match statement c with
  | None => raise AttributeError
  | Some _ =>
      r <- lift status ;;
      lift (AdapterResponse response_message (sql c) r)
  end.

Definition close : M unit :=
  debug [Lit "GlueCursor get_columns_in_relation called"] ;;
  c <- self ;;
  if _closed c then raise (Exception "CursorAlreadyClosed") else
  update (set_closed true).

(** *** GlueDictCursor *)

(** [data = {}; for i, c in enumerate(self.columns): data[c] = item[i]] *)
Fixpoint key_row (item : pyval) (cols : list (nat * pyval)) (data : pydict) : result pydict :=
  match cols with
  | [] => Return data
  | (i, col) :: rest =>
      match Py.index item i with
      | Return v =>
          match dict_setitem data col v with
          | Return data' => key_row item rest data'
          | Raise e => Raise e
          end
      | Raise e => Raise e
      end
  end.

Definition dict_record (item : pyval) : M pydict :=
  names <- columns ;;
  cols <- lift (Py.iter names) ;;
  lift (key_row item (enumerate cols) []).

Definition dict_fetchone : M (option pydict) :=
  debug [Lit "GlueDictCursor fetchone called"] ;;
  item <- fetchone ;;
  if negb (Py.truthy item) then ret None else
  data <- dict_record item ;;
  ret (Some data).

Definition dict_fetchall : M (list pydict) :=
  debug [Lit "GlueDictCursor fetchall called"] ;;
  array_records <- fetchall ;;
  items <- lift (Py.iter array_records) ;;
  for_each items dict_record.

(** The cursor as [execute] has it when the statement has been handed to
    the service ([waiting]) and when the state [st] of its answer has been
    stored ([answered]). *)
Definition waiting (stripped : string) (c : GlueCursor) : GlueCursor :=
  {| name := name c; _connection := _connection c; state := state c;
     _is_running := true; statement_id := statement_id c;
     code := PStr (submission_code stripped); sql := PStr stripped;
     response := PNone; _closed := _closed c; _it := None;
     statement :=
       Some {| stmt_client := client (connection c);
               stmt_session_id := session_id (connection c);
               stmt_code := submission_code stripped |} |}.

Definition answered (stripped : string) (st : pyval) (c : GlueCursor) : GlueCursor :=
  set_state st (waiting stripped c).

(** The log records [execute] writes before it reads the state. *)
Definition submission_logs (stripped : string) : list message :=
  [[Lit "GlueCursor execute called"];
   [Lit "GlueCursor remove_comments_header called"];
   [Lit ("client : " ++ submission_code stripped)%string]].

(** A computation that only reads the cached result: it leaves the
    cursor as it is, writes no log record, and what it returns or raises
    is the same on every cursor with the same [response]. *)
Definition reads_response {A} (m : M A) : Prop :=
  forall c c', response c' = response c -> m c' = mkOut c' [] (res (m c)).

(** A computation that leaves the cursor as it is. *)
Definition keeps_cursor {A} (m : M A) : Prop :=
  forall c, after (m c) = c.

(** A computation that leaves what was submitted as it is: the text, the
    code and the statement. *)
Definition keeps_submission {A} (m : M A) : Prop :=
  forall c,
    sql (after (m c)) = sql c
    /\ code (after (m c)) = code c
    /\ statement (after (m c)) = statement c.

(** The cursor after [if not self._it: self._it = 0]. *)
Definition with_index (c : GlueCursor) : GlueCursor :=
  if it_unset (_it c) then set_it (Some 0) c else c.

(** The value of [_it] when the next row to fetch is row [i]. *)
Definition position (i : nat) : option nat :=
  match i with
  | O => None
  | S _ => Some i
  end.

(** *** Runs of calls *)

(** A call a client can make on a cursor, with what the remote side
    answers where the call asks it. *)
Inductive call : Type :=
| CallExecute (text : string) (remote : result pyval)
| CallFetchone
| CallFetchall
| CallNext
| CallRowcount
| CallColumns
| CallDescription
| CallGetResponse (status : result pyval)
| CallClose
| CallDictFetchone
| CallDictFetchall.

(** The cursor a call leaves behind, whether it returned or raised. *)
Definition perform (k : call) (c : GlueCursor) : GlueCursor :=
  match k with
  | CallExecute text remote => after (execute text remote c)
  | CallFetchone => after (fetchone c)
  | CallFetchall => after (fetchall c)
  | CallNext => after (__next__ c)
  | CallRowcount => after (rowcount c)
  | CallColumns => after (columns c)
  | CallDescription => after (description c)
  | CallGetResponse status => after (get_response status c)
  | CallClose => after (close c)
  | CallDictFetchone => after (dict_fetchone c)
  | CallDictFetchall => after (dict_fetchall c)
  end.

Definition perform_all (ks : list call) (c : GlueCursor) : GlueCursor :=
  fold_left (fun c k => perform k c) ks c.

(** [n] calls of [fetchone] in a row: the cursor left behind and what
    each call returned or raised. *)
Fixpoint fetchone_times (n : nat) (c : GlueCursor) : GlueCursor * list (result pyval) :=
  match n with
  | O => (c, [])
  | S k =>
      let o := fetchone c in
      let rest := fetchone_times k (after o) in
      (fst rest, res o :: snd rest)
  end.

End Cursor.

(** ** Sample data

    A small session used to run the methods on concrete inputs. *)

Module Sample.

Definition nl : string := String PyStr.nl EmptyString.

Definition quoted (s : string) : string :=
  let q := String (ascii_of_nat 34) EmptyString in (q ++ s ++ q)%string.

Definition conn : GlueConnection := {| client := "glue"; session_id := PStr "session-1" |}.

(** A cursor just created. *)
Definition fresh : GlueCursor := __init__ "cursor-1" conn.

(** Two columns, two rows; the second row is all null. *)
Definition rows : list pyval :=
  [PDict [("type", PStr "record");
          ("data", PDict [("id", PInt 1); ("label", PStr "a")])];
   PDict [("type", PStr "record");
          ("data", PDict [("id", PNone); ("label", PNone)])]].

Definition described : list pyval :=
  [PDict [("name", PStr "id"); ("type", PStr "int")];
   PDict [("name", PStr "label"); ("type", PStr "string")]].

Definition fields : list (string * pyval) :=
  [("type", PStr "results"); ("rowcount", PInt 2);
   ("results", PList rows); ("description", PList described)].

Definition payload : pyval := PDict fields.

(** The rows of [payload] as [fetchall] presents them. *)
Definition records : list pyval :=
  [PList [PInt 1; PStr "a"]; PList [PNone; PNone]].

Definition rows_text : string :=
  ("[{" ++ quoted "type" ++ ": " ++ quoted "record" ++ ", "
   ++ quoted "data" ++ ": {" ++ quoted "id" ++ ": 1, " ++ quoted "label" ++ ": " ++ quoted "a" ++ "}}, {"
   ++ quoted "type" ++ ": " ++ quoted "record" ++ ", "
   ++ quoted "data" ++ ": {" ++ quoted "id" ++ ": null, " ++ quoted "label" ++ ": null}}]")%string.

Definition described_text : string :=
  ("[{" ++ quoted "name" ++ ": " ++ quoted "id" ++ ", "
   ++ quoted "type" ++ ": " ++ quoted "int" ++ "}, {" ++ quoted "name" ++ ": " ++ quoted "label" ++ ", "
   ++ quoted "type" ++ ": " ++ quoted "string" ++ "}]")%string.

(** [payload] as the remote side prints it. *)
Definition payload_text : string :=
  ("{" ++ quoted "type" ++ ": " ++ quoted "results" ++ ", "
   ++ quoted "rowcount" ++ ": 2, "
   ++ quoted "results" ++ ": " ++ rows_text ++ ", "
   ++ quoted "description" ++ ": " ++ described_text ++ "}")%string.

(** A payload whose "rowcount" field disagrees with its rows. *)
Definition odd_fields : list (string * pyval) :=
  [("rowcount", PInt 5); ("results", PList []); ("description", PList [])].

Definition odd_text : string :=
  ("{" ++ quoted "rowcount" ++ ": 5, " ++ quoted "results" ++ ": [], "
   ++ quoted "description" ++ ": []}")%string.

(** A payload with rows and no "description". *)
Definition bare_fields : list (string * pyval) :=
  [("rowcount", PInt 2); ("results", PList rows)].

Definition bare_text : string :=
  ("{" ++ quoted "rowcount" ++ ": 2, " ++ quoted "results" ++ ": " ++ rows_text ++ "}")%string.

(** A payload with a description and no "results". *)
Definition rowless_fields : list (string * pyval) :=
  [("description", PList described)].

Definition rowless_text : string :=
  ("{" ++ quoted "description" ++ ": " ++ described_text ++ "}")%string.

(** [json.loads] on the texts of this session: the payloads above parse,
    everything else is refused. *)
Definition documents : list (string * pyval) :=
  [(payload_text, payload); (odd_text, PDict odd_fields);
   (bare_text, PDict bare_fields); (rowless_text, PDict rowless_fields)].

Definition loads (s : string) : result pyval :=
  match Py.lookup s documents with
  | Some v => Return v
  | None => Raise (External "JSONDecodeError")
  end.

(** [textwrap.dedent] on the texts of this session, none of which is
    indented. *)
Definition dedent (s : string) : string := s.

Definition adapter_response (msg : string) (code r : pyval) : result pyval :=
  Return (PDict [("_message", PStr msg); ("code", code); ("rest", r)]).

(** What the statement service answers: a state and an output. *)
Definition reply (st : string) (output : pyval) : pyval :=
  PDict [("Statement", PDict [("Id", PInt 1); ("State", PStr st); ("Output", output)])].

Definition answer (st : string) (output : pyval) : result pyval :=
  Return (reply st output).

Definition ok_output (text : string) : pyval :=
  PDict [("Status", PStr "ok"); ("Data", PDict [("TextPlain", PStr text)])].

Definition error_output (ename evalue : string) : pyval :=
  PDict [("Status", PStr "error"); ("ErrorName", PStr ename); ("ErrorValue", PStr evalue)].

(** The cursor after a statement whose output is [text]. *)
Definition holding (text : string) : GlueCursor :=
  after (execute loads dedent "select 1"
           (answer GlueCursorState.AVAILABLE (ok_output text)) fresh).

(** A cursor holding [payload]. *)
Definition loaded : GlueCursor := holding payload_text.

(** A cursor whose statement has not finished, and a closed cursor. *)
Definition running : GlueCursor :=
  after (execute loads dedent "select 1" (answer GlueCursorState.RUNNING (PDict [])) fresh).

Definition shut : GlueCursor := after (close fresh).

(** More of the session: a payload with rows and an empty description, a
    payload that is a list, and a parser that knows them too. *)
Definition columnless_fields : list (string * pyval) :=
  [("results", PList rows); ("description", PList [])].

Definition columnless_text : string :=
  ("{" ++ quoted "results" ++ ": " ++ rows_text ++ ", "
   ++ quoted "description" ++ ": []}")%string.

Definition more_documents : list (string * pyval) :=
  [(columnless_text, PDict columnless_fields); ("[1, 2]", PList [PInt 1; PInt 2])].

Definition loads_more (s : string) : result pyval :=
  match Py.lookup s more_documents with
  | Some v => Return v
  | None => loads s
  end.

Definition holding_more (text : string) : GlueCursor :=
  after (execute loads_more dedent "select 1"
           (answer GlueCursorState.AVAILABLE (ok_output text)) fresh).

(** The names of the columns of [payload]. *)
Definition names : list string := ["id"; "label"].

(** [loaded] after one row has been fetched. *)
Definition advanced : GlueCursor := after (fetchone loaded).

(** An answer with a state and no output, and an answer with nothing. *)
Definition bare_reply (st : string) : pyval :=
  PDict [("Statement", PDict [("Id", PInt 1); ("State", PStr st)])].

Definition empty_reply : pyval := PDict [].

End Sample.

(** ** Iteration, and what a method may change *)

(** [__iter__] returns the cursor itself. *)
Definition __iter__ : M GlueCursor := self.

(** [list(cursor)]: [__next__] is called until it raises [StopIteration];
    any other exception ends the loop and is raised.  [fuel] bounds the
    number of calls; [None] means the bound was reached. *)
Fixpoint iterate (fuel : nat) (c : GlueCursor) : option (GlueCursor * result (list pyval)) :=
  match fuel with
  | O => None
  | S k =>
      let o := __next__ c in
      match res o with
      | Return item =>
          match iterate k (after o) with
          | Some (c', Return items) => Some (c', Return (item :: items))
          | other => other
          end
      | Raise StopIteration => Some (after o, Return [])
      | Raise e => Some (after o, Raise e)
      end
  end.

(** A computation that changes nothing of the cursor but its index. *)
Definition moves_index_only {A} (m : M A) : Prop :=
  forall c, exists i, after (m c) = set_it i c.

(** A computation that does not set the running flag of an idle cursor. *)
Definition stays_idle {A} (m : M A) : Prop :=
  forall c, _is_running c = false -> _is_running (after (m c)) = false.

(** The value a record holds for [column]: [item["data"][column]] when
    both keys are there, [None] otherwise. *)
Definition cell (item : pyval) (column : string) : pyval :=
  match item with
  | PDict f =>
      match Py.lookup "data" f with
      | Some (PDict d) =>
          match Py.lookup column d with
          | Some v => v
          | None => PNone
          end
      | _ => PNone
      end
  | _ => PNone
  end.

(** A row [fetchall] can project: a dict whose "data", when present, is a
    dict. *)
Definition row_shaped (item : pyval) : bool :=
  match item with
  | PDict f =>
      match Py.lookup "data" f with
      | Some (PDict _) | None => true
      | Some _ => false
      end
  | _ => false
  end.

(** A column descriptor with a text as "name". *)
Definition named (s : string) (col : pyval) : Prop :=
  Py.get col "name" PNone = Return (PStr s).

(** No line feed in a text. *)
Definition one_line (s : string) : Prop := ~ In PyStr.nl (list_ascii_of_string s).

(** * Facts *)

Arguments text_plain : simpl never.
Arguments statement_field : simpl never.
Arguments header_removed : simpl never.
Arguments Py.get : simpl never.
Arguments Py.iter : simpl never.
Arguments Py.index : simpl never.
Arguments Py.truthy : simpl never.
Arguments PyStr.split : simpl never.
Arguments PyStr.find : simpl never.
Arguments PyStr.nl : simpl never.

(** ** Computations that keep the cursor *)

Lemma keeps_ret {A} (a : A) : keeps_cursor (ret a).
Proof. now intros c. Qed.

Lemma keeps_raise {A} e : keeps_cursor (@raise A e).
Proof. now intros c. Qed.

Lemma keeps_lift {A} (r : result A) : keeps_cursor (lift r).
Proof. now intros c. Qed.

Lemma keeps_debug msg : keeps_cursor (debug msg).
Proof. now intros c. Qed.

Lemma keeps_self : keeps_cursor self.
Proof. now intros c. Qed.

Lemma keeps_bind {A B} (m : M A) (k : A -> M B) :
  keeps_cursor m -> (forall a, keeps_cursor (k a)) -> keeps_cursor (bind m k).
Proof.
  intros Hm Hk c. unfold bind. specialize (Hm c).
  destruct (m c) as [c1 l1 [a | e]]; cbn in *; subst.
  - specialize (Hk a c). now destruct (k a c).
  - reflexivity.
Qed.

Lemma keeps_for_each {A B} (xs : list A) (body : A -> M B) :
  (forall x, keeps_cursor (body x)) -> keeps_cursor (for_each xs body).
Proof.
  intros Hb. induction xs as [| x xs IH]; cbn.
  - apply keeps_ret.
  - apply keeps_bind; [apply Hb |]. intros y.
    apply keeps_bind; [exact IH |]. intros ys. apply keeps_ret.
Qed.

Lemma reads_keeps {A} (m : M A) : reads_response m -> keeps_cursor m.
Proof.
  intros H c. now rewrite (H c c eq_refl).
Qed.

(** ** Computations that only read the cached result *)

Lemma reads_ret {A} (a : A) : reads_response (ret a).
Proof. now intros c c' _. Qed.

Lemma reads_lift {A} (r : result A) : reads_response (lift r).
Proof. now intros c c' _. Qed.

Lemma reads_bind {A B} (m : M A) (k : A -> M B) :
  reads_response m -> (forall a, reads_response (k a)) -> reads_response (bind m k).
Proof.
  intros Hm Hk c c' E. unfold bind.
  rewrite (Hm c c' E), (Hm c c eq_refl).
  destruct (res (m c)) as [a | e]; cbn; [| reflexivity].
  rewrite (Hk a c c' E), (Hk a c c eq_refl). reflexivity.
Qed.

(** [c <- self ;; k c], when [k] looks at nothing but [response c]. *)
Lemma reads_self_bind {A} (k : GlueCursor -> M A) :
  (forall c0, reads_response (k c0)) ->
  (forall c0 c1, response c0 = response c1 -> k c0 = k c1) ->
  reads_response (bind self k).
Proof.
  intros Hk Hsame c c' E. unfold bind, self.
  rewrite (Hsame c' c E), (Hk c c c' E), (Hk c c c eq_refl). reflexivity.
Qed.

Lemma reads_for_each {A B} (xs : list A) (body : A -> M B) :
  (forall x, reads_response (body x)) -> reads_response (for_each xs body).
Proof.
  intros Hb. induction xs as [| x xs IH]; cbn.
  - apply reads_ret.
  - apply reads_bind; [apply Hb |]. intros y.
    apply reads_bind; [exact IH |]. intros ys. apply reads_ret.
Qed.

Lemma rowcount_reads : reads_response rowcount.
Proof.
  apply reads_self_bind.
  - intros c0. destruct (Py.truthy (response c0)); [apply reads_lift | apply reads_ret].
  - intros c0 c1 E. now rewrite E.
Qed.

Lemma columns_reads : reads_response columns.
Proof.
  apply reads_self_bind.
  - intros c0. destruct (Py.truthy (response c0)); [| apply reads_ret].
    apply reads_bind; [apply reads_lift |]. intros d.
    apply reads_bind; [apply reads_lift |]. intros cols.
    apply reads_bind; [| intros names; apply reads_ret].
    apply reads_for_each. intros col. apply reads_lift.
  - intros c0 c1 E. now rewrite E.
Qed.

Lemma project_row_reads item : reads_response (project_row item).
Proof.
  apply reads_bind; [apply columns_reads |]. intros names.
  apply reads_bind; [apply reads_lift |]. intros cols.
  apply reads_bind; [| intros record; apply reads_ret].
  apply reads_for_each. intros col.
  apply reads_bind; [apply reads_lift |]. intros d. apply reads_lift.
Qed.

Lemma description_keeps : keeps_cursor description.
Proof.
  apply keeps_bind; [apply keeps_debug |]. intros _.
  apply keeps_bind; [apply keeps_self |]. intros c0.
  destruct (Py.truthy (response c0)); [| apply keeps_ret].
  apply keeps_bind; [apply keeps_lift |]. intros d.
  apply keeps_bind; [apply keeps_lift |]. intros cols.
  apply keeps_bind; [| intros pairs; apply keeps_ret].
  apply keeps_for_each. intros col.
  apply keeps_bind; [apply keeps_lift |]. intros n.
  apply keeps_bind; [apply keeps_lift |]. intros t. apply keeps_ret.
Qed.

(** ** The guards of the fetch methods and of [close] *)

Lemma fetchone_closed c :
  _closed c = true ->
  fetchone c = mkOut c [[Lit "GlueCursor fetchone called"]] (Raise (Exception "CursorClosed")).
Proof.
  intros H. unfold fetchone, bind, debug, self, closed. cbn. now rewrite H.
Qed.

Lemma fetchall_closed c :
  _closed c = true ->
  fetchall c = mkOut c [[Lit "GlueCursor fetchall called"]] (Raise (Exception "CursorClosed")).
Proof.
  intros H. unfold fetchall, bind, debug, self, closed. cbn. now rewrite H.
Qed.

Lemma dict_fetchone_closed c :
  _closed c = true ->
  dict_fetchone c
  = mkOut c [[Lit "GlueDictCursor fetchone called"]; [Lit "GlueCursor fetchone called"]]
      (Raise (Exception "CursorClosed")).
Proof.
  intros H. unfold dict_fetchone.
  unfold bind at 1. cbn. unfold bind at 1. now rewrite (fetchone_closed c H).
Qed.

Lemma dict_fetchall_closed c :
  _closed c = true ->
  dict_fetchall c
  = mkOut c [[Lit "GlueDictCursor fetchall called"]; [Lit "GlueCursor fetchall called"]]
      (Raise (Exception "CursorClosed")).
Proof.
  intros H. unfold dict_fetchall.
  unfold bind at 1. cbn. unfold bind at 1. now rewrite (fetchall_closed c H).
Qed.

Lemma next_closed c :
  _closed c = true ->
  __next__ c = mkOut c [[Lit "GlueCursor fetchone called"]] (Raise (Exception "CursorClosed")).
Proof.
  intros H. unfold __next__. unfold bind at 1. now rewrite (fetchone_closed c H).
Qed.

Lemma close_closed c :
  _closed c = true ->
  close c = mkOut c [[Lit "GlueCursor get_columns_in_relation called"]]
              (Raise (Exception "CursorAlreadyClosed")).
Proof.
  intros H. unfold close, bind, debug, self. cbn. now rewrite H.
Qed.

Lemma close_open c :
  _closed c = false ->
  close c = mkOut (set_closed true c) [[Lit "GlueCursor get_columns_in_relation called"]]
              (Return tt).
Proof.
  intros H. unfold close, bind, debug, self. cbn. now rewrite H.
Qed.

Section Facts.

Variable json_loads : string -> result pyval.
Variable dedent : string -> string.
Variable AdapterResponse : string -> pyval -> pyval -> result pyval.

(** ** [execute]: the guards and the submission *)

Lemma execute_closed c text remote :
  _closed c = true ->
  execute json_loads dedent text remote c
  = mkOut c [[Lit "GlueCursor execute called"]] (Raise (Exception "CursorClosed")).
Proof.
  intros H. unfold execute, bind, debug, self, closed. cbn. now rewrite H.
Qed.

Lemma execute_running c text remote :
  _closed c = false -> _is_running c = true ->
  execute json_loads dedent text remote c
  = mkOut c [[Lit "GlueCursor execute called"]]
      (Raise (InternalException (Some "CursorAlreadyRunning"))).
Proof.
  intros H H'. unfold execute, bind, debug, self, closed. cbn. now rewrite H, H'.
Qed.

Lemma execute_bad_header c text remote e :
  _closed c = false -> _is_running c = false ->
  header_removed text = Raise e ->
  execute json_loads dedent text remote c
  = mkOut c [[Lit "GlueCursor execute called"];
             [Lit "GlueCursor remove_comments_header called"]] (Raise e).
Proof.
  intros H H' Hh.
  unfold execute, bind, debug, self, closed, remove_comments_header, lift.
  cbn. rewrite H, H'. cbn. now rewrite Hh.
Qed.

Lemma execute_unanswered c text stripped e :
  _closed c = false -> _is_running c = false ->
  header_removed text = Return stripped ->
  execute json_loads dedent text (Raise e) c
  = mkOut (waiting dedent stripped c) (submission_logs dedent stripped) (Raise e).
Proof.
  intros H H' Hh.
  unfold execute, bind, debug, self, closed, remove_comments_header, lift,
    _pre, update.
  cbn. rewrite H, H'. cbn. rewrite Hh. cbn. reflexivity.
Qed.

Lemma execute_bad_answer c text stripped r e :
  _closed c = false -> _is_running c = false ->
  header_removed text = Return stripped ->
  statement_field r "State" (PStr GlueCursorState.WAITING) = Raise e ->
  execute json_loads dedent text (Return r) c
  = mkOut (waiting dedent stripped c) (submission_logs dedent stripped ++ [[Fmt r]]) (Raise e).
Proof.
  intros H H' Hh Hs.
  unfold execute, bind, debug, self, closed, remove_comments_header, lift,
    _pre, update.
  cbn. rewrite H, H'. cbn. rewrite Hh. cbn.
  change (PStr "WAITING") with (PStr GlueCursorState.WAITING). rewrite Hs. reflexivity.
Qed.

Lemma execute_answered c text stripped r st :
  _closed c = false -> _is_running c = false ->
  header_removed text = Return stripped ->
  statement_field r "State" (PStr GlueCursorState.WAITING) = Return st ->
  execute json_loads dedent text (Return r) c
  = let o := settle json_loads r (answered dedent stripped st c) in
    mkOut (after o) (submission_logs dedent stripped ++ [Fmt r] :: logs o) (res o).
Proof.
  intros H H' Hh Hs.
  unfold execute, bind, debug, self, closed, remove_comments_header, lift,
    _pre, update.
  cbn. rewrite H, H'. cbn. rewrite Hh. cbn.
  change (PStr "WAITING") with (PStr GlueCursorState.WAITING). rewrite Hs.
  change (set_state st _) with (answered dedent stripped st c).
  now destruct (settle json_loads r (answered dedent stripped st c)).
Qed.

(** ** [execute]: what follows the answer *)

Lemma settle_error r c :
  state c = PStr GlueCursorState.ERROR ->
  settle json_loads r c
  = mkOut (set_state (PStr "error") (set_is_running false (set_it None c))) []
      (Raise (InternalException None)).
Proof.
  intros Hs.
  unfold settle, on_available, on_error, bind, self, _post, update, raise, ret.
  cbn. repeat (rewrite Hs; cbn). reflexivity.
Qed.

Lemma settle_cancelled r c :
  state c = PStr GlueCursorState.CANCELLED \/ state c = PStr GlueCursorState.CANCELLING ->
  settle json_loads r c
  = mkOut (set_is_running false (set_it None c)) []
      (Raise (DatabaseException (cancelled_message c))).
Proof.
  intros [Hs | Hs];
    unfold settle, on_available, on_error, on_cancelled, bind, self, _post, update, raise, ret;
    cbn; repeat (rewrite Hs; cbn); reflexivity.
Qed.

(** Any other state, [WAITING] and [RUNNING] among them, is returned as it
    came: the cursor stays running. *)
Lemma settle_other r c :
  Py.eq_str (state c) GlueCursorState.AVAILABLE = false ->
  Py.eq_str (state c) GlueCursorState.ERROR = false ->
  Py.eq_str (state c) GlueCursorState.CANCELLED = false ->
  Py.eq_str (state c) GlueCursorState.CANCELLING = false ->
  settle json_loads r c = mkOut c [] (Return (response c)).
Proof.
  intros H1 H2 H3 H4.
  unfold settle, on_available, on_error, on_cancelled, bind, self, ret.
  cbn. rewrite H1. cbn. rewrite H2. cbn. rewrite H3, H4. reflexivity.
Qed.

Lemma settle_not_ok r c output status en ev :
  state c = PStr GlueCursorState.AVAILABLE ->
  statement_field r "Output" (PDict []) = Return output ->
  Py.get output "Status" PNone = Return status ->
  Py.eq_str status "ok" = false ->
  Py.get output "ErrorName" PNone = Return en ->
  Py.get output "ErrorValue" PNone = Return (PStr ev) ->
  let c' := set_is_running false (set_it None c) in
  settle json_loads r c
  = if Z.eqb (PyStr.find not_a_view ev) 0
    then mkOut c' [] (Raise (DatabaseException (not_ok_message c' status en (PStr ev))))
    else mkOut c' [not_ok_message c' status en (PStr ev)] (Return (response c)).
Proof.
  intros Hs Ho Hst Hok Hen Hev c'.
  unfold settle, on_available, on_error, on_cancelled, report_not_ok,
    bind, self, _post, update, raise, ret, lift, debug.
  cbn. rewrite Hs. cbn. rewrite Ho, Hst, Hok, Hev. cbn. rewrite Hen.
  destruct (Z.eqb (PyStr.find not_a_view ev) 0) eqn:E; cbn.
  - reflexivity.
  - repeat (rewrite Hs; cbn). reflexivity.
Qed.

Lemma settle_ok_unparsed r c output status text chunk others e1 e2 :
  state c = PStr GlueCursorState.AVAILABLE ->
  statement_field r "Output" (PDict []) = Return output ->
  Py.get output "Status" PNone = Return status ->
  Py.eq_str status "ok" = true ->
  text_plain output = Return text ->
  json_loads text = Raise e1 ->
  PyStr.split PyStr.nl text = chunk :: others ->
  json_loads chunk = Raise e2 ->
  settle json_loads r c = mkOut (set_is_running false (set_it None c)) [] (Raise e2).
Proof.
  intros Hs Ho Hst Hok Ht H1 Hc H2.
  unfold settle, on_available, record_payload, bind, try_except, self, _post,
    update, raise, ret, lift, debug.
  cbn. rewrite Hs. cbn. rewrite Ho, Hst, Hok, Ht, H1. cbn. rewrite Hc. cbn.
  rewrite H2. reflexivity.
Qed.

Lemma settle_ok_parsed r c output status text v :
  state c = PStr GlueCursorState.AVAILABLE ->
  statement_field r "Output" (PDict []) = Return output ->
  Py.get output "Status" PNone = Return status ->
  Py.eq_str status "ok" = true ->
  text_plain output = Return text ->
  json_loads text = Return v ->
  settle json_loads r c
  = mkOut (set_response v (set_is_running false (set_it None c))) [] (Return v).
Proof.
  intros Hs Ho Hst Hok Ht H1.
  unfold settle, on_available, on_error, on_cancelled, record_payload, bind,
    try_except, self, _post, update, raise, ret, lift, debug.
  cbn. rewrite Hs. cbn. rewrite Ho, Hst, Hok, Ht, H1. cbn.
  repeat (rewrite Hs; cbn). reflexivity.
Qed.

Lemma get_response_keeps status : keeps_cursor (get_response AdapterResponse status).
Proof.
  apply keeps_bind; [apply keeps_debug |]. intros _.
  apply keeps_bind; [apply keeps_self |]. intros c0.
  destruct (statement c0); [| apply keeps_raise].
  apply keeps_bind; [apply keeps_lift |]. intros r. apply keeps_lift.
Qed.

(** No call changes a closed cursor. *)
Lemma perform_closed k c :
  _closed c = true -> perform json_loads dedent AdapterResponse k c = c.
Proof.
  intros H. destruct k; unfold perform.
  - now rewrite execute_closed.
  - now rewrite fetchone_closed.
  - now rewrite fetchall_closed.
  - now rewrite next_closed.
  - apply (reads_keeps _ rowcount_reads).
  - apply (reads_keeps _ columns_reads).
  - apply description_keeps.
  - apply get_response_keeps.
  - now rewrite close_closed.
  - now rewrite dict_fetchone_closed.
  - now rewrite dict_fetchall_closed.
Qed.

Lemma perform_all_closed ks c :
  _closed c = true -> perform_all json_loads dedent AdapterResponse ks c = c.
Proof.
  intros H. unfold perform_all. induction ks as [| k ks IH].
  - reflexivity.
  - cbn [fold_left]. now rewrite perform_closed.
Qed.

(** ** The claims on [execute] *)

(** An answer in a state that is not terminal leaves the cursor running. *)
Lemma execute_stays_running c text stripped r st :
  _closed c = false -> _is_running c = false ->
  header_removed text = Return stripped ->
  statement_field r "State" (PStr GlueCursorState.WAITING) = Return (PStr st) ->
  st = GlueCursorState.WAITING \/ st = GlueCursorState.RUNNING ->
  execute json_loads dedent text (Return r) c
  = mkOut (answered dedent stripped (PStr st) c)
      (submission_logs dedent stripped ++ [[Fmt r]]) (Return PNone).
Proof.
  intros H H' Hh Hs Hst.
  rewrite (execute_answered c text stripped r (PStr st) H H' Hh Hs).
  rewrite settle_other; [reflexivity | | | |]; destruct Hst; subst st; reflexivity.
Qed.

(** C5. A second [execute] while a statement is running raises
    [InternalException("CursorAlreadyRunning")], and a cursor whose
    statement came back [WAITING] or [RUNNING] is in that situation;
    [execute], [fetchone] and [fetchall] (of both cursor classes) on a
    closed cursor raise [Exception("CursorClosed")]; [close] on a closed
    cursor raises [Exception("CursorAlreadyClosed")], so a second [close]
    does; and no sequence of calls reopens a closed cursor. *)
Theorem cursor_guards (c : GlueCursor) (text text' : string)
    (remote : result pyval) (ks : list call) :
  (_closed c = false -> _is_running c = true ->
   res (execute json_loads dedent text remote c)
   = Raise (InternalException (Some "CursorAlreadyRunning")))
  /\ (forall stripped r st,
        _closed c = false -> _is_running c = false ->
        header_removed text' = Return stripped ->
        statement_field r "State" (PStr GlueCursorState.WAITING) = Return (PStr st) ->
        st = GlueCursorState.WAITING \/ st = GlueCursorState.RUNNING ->
        res (execute json_loads dedent text remote
               (after (execute json_loads dedent text' (Return r) c)))
        = Raise (InternalException (Some "CursorAlreadyRunning")))
  /\ (_closed c = true ->
        res (execute json_loads dedent text remote c) = Raise (Exception "CursorClosed")
        /\ res (fetchone c) = Raise (Exception "CursorClosed")
        /\ res (fetchall c) = Raise (Exception "CursorClosed")
        /\ res (dict_fetchone c) = Raise (Exception "CursorClosed")
        /\ res (dict_fetchall c) = Raise (Exception "CursorClosed")
        /\ res (close c) = Raise (Exception "CursorAlreadyClosed")
        /\ _closed (perform_all json_loads dedent AdapterResponse ks c) = true)
  /\ (_closed c = false ->
        res (close c) = Return tt
        /\ _closed (after (close c)) = true
        /\ res (close (after (close c))) = Raise (Exception "CursorAlreadyClosed")).
Proof.
  split; [| split; [| split]].
  - intros H H'. now rewrite execute_running.
  - intros stripped r st H H' Hh Hs Hst.
    rewrite (execute_stays_running c text' stripped r st H H' Hh Hs Hst).
    now rewrite execute_running.
  - intros H.
    rewrite execute_closed, fetchone_closed, fetchall_closed, dict_fetchone_closed,
      dict_fetchall_closed, close_closed, perform_all_closed by exact H.
    repeat split; assumption.
  - intros H. rewrite (close_open c H). cbn [res after].
    now rewrite close_closed.
Qed.

(** C4, as amended.  When the statement comes back in state [ERROR],
    [execute] raises a bare [InternalException]; the cursor is left with
    no cached result ([_pre] cleared it before the submission), in state
    ["error"], not running and still open. *)
Theorem execute_error_clears_result (c : GlueCursor) (text stripped : string) (r : pyval) :
  _closed c = false -> _is_running c = false ->
  header_removed text = Return stripped ->
  statement_field r "State" (PStr GlueCursorState.WAITING)
  = Return (PStr GlueCursorState.ERROR) ->
  let o := execute json_loads dedent text (Return r) c in
  res o = Raise (InternalException None)
  /\ response (after o) = PNone
  /\ state (after o) = PStr "error"
  /\ _is_running (after o) = false
  /\ _closed (after o) = false.
Proof.
  intros H H' Hh Hs o. subst o.
  rewrite (execute_answered c text stripped r _ H H' Hh Hs).
  rewrite settle_error by reflexivity. cbn. auto.
Qed.

(** C1.  For a statement that comes back [AVAILABLE] with a status other
    than "ok" and an error value [ev] that is a text, [execute] raises the
    [DatabaseException] carrying status, error name and error value
    exactly when [ev.find("is not a view")] is 0, that is when [ev] starts
    with that text; in every other case, also when [ev] does not contain
    the text at all, it logs the message and returns [None]. *)
Theorem execute_not_ok_outcome (c : GlueCursor) (text stripped : string)
    (r output status en : pyval) (ev : string) :
  _closed c = false -> _is_running c = false ->
  header_removed text = Return stripped ->
  statement_field r "State" (PStr GlueCursorState.WAITING)
  = Return (PStr GlueCursorState.AVAILABLE) ->
  statement_field r "Output" (PDict []) = Return output ->
  Py.get output "Status" PNone = Return status ->
  Py.eq_str status "ok" = false ->
  Py.get output "ErrorName" PNone = Return en ->
  Py.get output "ErrorValue" PNone = Return (PStr ev) ->
  let o := execute json_loads dedent text (Return r) c in
  let msg :=
    not_ok_message (answered dedent stripped (PStr GlueCursorState.AVAILABLE) c)
      status en (PStr ev) in
  (PyStr.find not_a_view ev = 0%Z -> res o = Raise (DatabaseException msg))
  /\ (PyStr.find not_a_view ev <> 0%Z ->
      res o = Return PNone
      /\ logs o = submission_logs dedent stripped ++ [[Fmt r]; msg])
  /\ (PyStr.contains not_a_view ev = false -> res o = Return PNone).
Proof.
  intros H H' Hh Hs Ho Hst Hok Hen Hev o msg. subst o.
  rewrite (execute_answered c text stripped r _ H H' Hh Hs).
  rewrite (settle_not_ok r (answered dedent stripped (PStr GlueCursorState.AVAILABLE) c)
             output status en ev eq_refl Ho Hst Hok Hen Hev).
  assert (Hfind : PyStr.contains not_a_view ev = false -> PyStr.find not_a_view ev <> 0%Z).
  { unfold PyStr.contains, PyStr.find. destruct (PyStr.find_opt not_a_view ev); discriminate. }
  split; [| split].
  - intros E. rewrite E. reflexivity.
  - intros E. apply Z.eqb_neq in E. rewrite E. split; reflexivity.
  - intros E. apply Hfind, Z.eqb_neq in E. rewrite E. reflexivity.
Qed.

(** C2.  For a statement that comes back [AVAILABLE] with status "ok"
    whose text parses neither whole nor by its first line, [execute]
    raises: the handler that should log the failure parses the first line
    once more to build its message, and that raises again.  The cursor is
    left with no cached result and not running. *)
Theorem execute_unparsed_raises (c : GlueCursor) (text stripped : string)
    (r output status : pyval) (plain chunk : string) (others : list string)
    (e1 e2 : exn) :
  _closed c = false -> _is_running c = false ->
  header_removed text = Return stripped ->
  statement_field r "State" (PStr GlueCursorState.WAITING)
  = Return (PStr GlueCursorState.AVAILABLE) ->
  statement_field r "Output" (PDict []) = Return output ->
  Py.get output "Status" PNone = Return status ->
  Py.eq_str status "ok" = true ->
  text_plain output = Return plain ->
  json_loads plain = Raise e1 ->
  PyStr.split PyStr.nl plain = chunk :: others ->
  json_loads chunk = Raise e2 ->
  let o := execute json_loads dedent text (Return r) c in
  res o = Raise e2
  /\ response (after o) = PNone
  /\ _is_running (after o) = false.
Proof.
  intros H H' Hh Hs Ho Hst Hok Ht H1 Hc H2 o. subst o.
  rewrite (execute_answered c text stripped r _ H H' Hh Hs).
  rewrite (settle_ok_unparsed r (answered dedent stripped (PStr GlueCursorState.AVAILABLE) c)
             output status plain chunk others e1 e2 eq_refl Ho Hst Hok Ht H1 Hc H2).
  cbn. auto.
Qed.

End Facts.

(** ** The claims on [execute], on the sample session *)

(** C1, first failing input: an error value that does not contain
    "is not a view" is logged and [execute] returns. *)
Lemma execute_not_ok_outcome_witness :
  res (execute Sample.loads Sample.dedent "select 1"
         (Sample.answer GlueCursorState.AVAILABLE
            (Sample.error_output "AnalysisException" "Table or view not found: t"))
         Sample.fresh)
  = Return PNone.
Proof.
  refine (proj2 (proj2 (execute_not_ok_outcome Sample.loads Sample.dedent
           Sample.fresh "select 1" "select 1"
           (Sample.reply GlueCursorState.AVAILABLE
              (Sample.error_output "AnalysisException" "Table or view not found: t"))
           (Sample.error_output "AnalysisException" "Table or view not found: t")
           (PStr "error") (PStr "AnalysisException") "Table or view not found: t"
           eq_refl eq_refl eq_refl eq_refl eq_refl eq_refl eq_refl eq_refl eq_refl)) _).
  reflexivity.
Defined.

(** C1, second failing input: an error value that starts with
    "is not a view" is raised. *)
Lemma execute_raises_not_a_view :
  exists msg,
    res (execute Sample.loads Sample.dedent "drop view t"
           (Sample.answer GlueCursorState.AVAILABLE
              (Sample.error_output "AnalysisException" "is not a view: t"))
           Sample.fresh)
    = Raise (DatabaseException msg)
    /\ In (Fmt (PStr "is not a view: t")) msg.
Proof.
  eexists. split; [vm_compute; reflexivity |]. cbn. tauto.
Qed.

(** C2, failing input: the text "oops" is no JSON. *)
Lemma execute_unparsed_raises_witness :
  res (execute Sample.loads Sample.dedent "select 1"
         (Sample.answer GlueCursorState.AVAILABLE (Sample.ok_output "oops"))
         Sample.fresh)
  = Raise (External "JSONDecodeError").
Proof.
  refine (proj1 (execute_unparsed_raises Sample.loads Sample.dedent
           Sample.fresh "select 1" "select 1"
           (Sample.reply GlueCursorState.AVAILABLE (Sample.ok_output "oops"))
           (Sample.ok_output "oops") (PStr "ok") "oops" "oops" []
           (External "JSONDecodeError") (External "JSONDecodeError")
           eq_refl eq_refl eq_refl eq_refl eq_refl eq_refl eq_refl eq_refl eq_refl
           eq_refl eq_refl)).
Defined.

(** C4 as stated fails: the cursor held [Sample.payload]; after an
    [execute] that ended in state [ERROR] it holds nothing. *)
Lemma execute_error_drops_cached_result :
  let o := execute Sample.loads Sample.dedent "select 2"
             (Sample.answer GlueCursorState.ERROR (PDict [])) Sample.loaded in
  response Sample.loaded = Sample.payload
  /\ res o = Raise (InternalException None)
  /\ response (after o) = PNone
  /\ response (after o) <> response Sample.loaded.
Proof.
  cbv zeta. repeat split; try (vm_compute; reflexivity).
  vm_compute. discriminate.
Qed.

Lemma execute_error_clears_result_witness :
  let o := execute Sample.loads Sample.dedent "select 2"
             (Sample.answer GlueCursorState.ERROR (PDict [])) Sample.loaded in
  res o = Raise (InternalException None)
  /\ response (after o) = PNone
  /\ state (after o) = PStr "error"
  /\ _is_running (after o) = false
  /\ _closed (after o) = false.
Proof.
  exact (execute_error_clears_result Sample.loads Sample.dedent
           Sample.loaded "select 2" "select 2"
           (Sample.reply GlueCursorState.ERROR (PDict []))
           eq_refl eq_refl eq_refl eq_refl).
Defined.

Arguments fetchone_row : simpl never.
Arguments project_row : simpl never.
Arguments columns : simpl never.

(** ** Fetching *)

Lemma set_it_same c : set_it (_it c) c = c.
Proof. now destruct c. Qed.

Lemma get_found fields k v d :
  Py.lookup k fields = Some v -> Py.get (PDict fields) k d = Return v.
Proof. intros H. unfold Py.get. now rewrite H. Qed.

Lemma get_missing fields k d :
  Py.lookup k fields = None -> Py.get (PDict fields) k d = Return d.
Proof. intros H. unfold Py.get. now rewrite H. Qed.

Lemma truthy_found fields k v :
  Py.lookup k fields = Some v -> Py.truthy (PDict fields) = true.
Proof. destruct fields; [discriminate | reflexivity]. Qed.

Lemma fetchone_no_result c :
  _closed c = false -> Py.truthy (response c) = false ->
  fetchone c = mkOut c [[Lit "GlueCursor fetchone called"]] (Return PNone).
Proof.
  intros H Ht. unfold fetchone, bind, debug, self, closed, ret. cbn. now rewrite H, Ht.
Qed.

Lemma fetchall_no_result c :
  _closed c = false -> Py.truthy (response c) = false ->
  fetchall c = mkOut c [[Lit "GlueCursor fetchall called"]] (Return PNone).
Proof.
  intros H Ht. unfold fetchall, bind, debug, self, closed, ret. cbn. now rewrite H, Ht.
Qed.

(** [fetchone] on an open cursor with a result: the [try] block runs on
    the cursor with its index set, a value it returns is returned, an
    exception it raises becomes [None] and resets the index. *)
Lemma fetchone_try c :
  _closed c = false -> Py.truthy (response c) = true ->
  fetchone c
  = let o := fetchone_row (with_index c) in
    match res o with
    | Return v => mkOut (after o) ([Lit "GlueCursor fetchone called"] :: logs o) (Return v)
    | Raise _ =>
        mkOut (set_it None (after o)) ([Lit "GlueCursor fetchone called"] :: logs o)
          (Return PNone)
    end.
Proof.
  intros H Ht. unfold fetchone, bind, try_except, debug, self, closed, ret, update, with_index.
  cbn. rewrite H, Ht.
  destruct (it_unset (_it c)); cbn;
    match goal with |- context [fetchone_row ?x] => destruct (fetchone_row x) as [c1 l1 [v | e]] end;
    cbn; rewrite ?app_nil_r; reflexivity.
Qed.

(** The [try] block when the next row is row [i]. *)
Lemma fetchone_row_at c i :
  fetchone_row (with_index (set_it (position i) c))
  = match Py.get (response c) "results" PNone with
    | Return rs =>
        match Py.index rs i with
        | Return item =>
            match res (project_row item c) with
            | Return record =>
                mkOut (set_it (Some (i + 1)) c) [] (Return record)
            | Raise e => mkOut (set_it (Some i) c) [] (Raise e)
            end
        | Raise e => mkOut (set_it (Some i) c) [] (Raise e)
        end
    | Raise e => mkOut (set_it (Some i) c) [] (Raise e)
    end.
Proof.
  assert (E : with_index (set_it (position i) c) = set_it (Some i) c)
    by now destruct i.
  rewrite E. unfold fetchone_row, bind, self, lift, update, ret. cbn.
  destruct (Py.get (response c) "results" PNone) as [rs | e]; [| reflexivity].
  destruct (Py.index rs i) as [item | e]; [| reflexivity].
  rewrite (project_row_reads item c (set_it (Some i) c) eq_refl).
  now destruct (res (project_row item c)).
Qed.

Lemma fetchone_at c i :
  _closed c = false -> Py.truthy (response c) = true ->
  fetchone (set_it (position i) c)
  = match Py.get (response c) "results" PNone with
    | Return rs =>
        match Py.index rs i with
        | Return item =>
            match res (project_row item c) with
            | Return record =>
                mkOut (set_it (Some (i + 1)) c) [[Lit "GlueCursor fetchone called"]]
                  (Return record)
            | Raise _ => mkOut (set_it None c) [[Lit "GlueCursor fetchone called"]] (Return PNone)
            end
        | Raise _ => mkOut (set_it None c) [[Lit "GlueCursor fetchone called"]] (Return PNone)
        end
    | Raise _ => mkOut (set_it None c) [[Lit "GlueCursor fetchone called"]] (Return PNone)
    end.
Proof.
  intros H Ht. rewrite fetchone_try by assumption. rewrite fetchone_row_at.
  destruct (Py.get (response c) "results" PNone) as [rs | e]; [| reflexivity].
  destruct (Py.index rs i) as [item | e]; [| reflexivity].
  now destruct (res (project_row item c)).
Qed.

(** [fetchall] on an open cursor with a result whose rows can be walked. *)
Lemma fetchall_rows c rs items :
  _closed c = false -> Py.truthy (response c) = true ->
  Py.get (response c) "results" (PList []) = Return rs ->
  Py.iter rs = Return items ->
  fetchall c
  = mkOut c [[Lit "GlueCursor fetchall called"]]
      match res (for_each items project_row c) with
      | Return records => Return (PList records)
      | Raise e => Raise e
      end.
Proof.
  intros H Ht Hr Hi. unfold fetchall, bind, debug, self, closed, ret, lift. cbn.
  rewrite H, Ht, Hr, Hi.
  rewrite (reads_for_each items project_row project_row_reads c c eq_refl).
  now destruct (res (for_each items project_row c)).
Qed.

Lemma fetchall_not_walkable c rs e :
  _closed c = false -> Py.truthy (response c) = true ->
  Py.get (response c) "results" (PList []) = Return rs ->
  Py.iter rs = Raise e ->
  fetchall c = mkOut c [[Lit "GlueCursor fetchall called"]] (Raise e).
Proof.
  intros H Ht Hr Hi. unfold fetchall, bind, debug, self, closed, ret, lift. cbn.
  now rewrite H, Ht, Hr, Hi.
Qed.

(** A loop whose body only reads the result: what it collects, row by row. *)
Lemma for_each_collected {A B} (body : A -> M B) (xs : list A) c ys :
  (forall x, reads_response (body x)) ->
  res (for_each xs body c) = Return ys ->
  length ys = length xs
  /\ forall i x, nth_error xs i = Some x ->
       exists y, nth_error ys i = Some y /\ res (body x c) = Return y.
Proof.
  intros Hb. revert ys. induction xs as [| x xs IH]; intros ys Hys.
  - cbn in Hys. injection Hys as <-. split; [reflexivity |].
    intros [| i] x0 Hx; discriminate.
  - cbn [for_each] in Hys. unfold bind in Hys.
    rewrite (Hb x c c eq_refl) in Hys.
    destruct (res (body x c)) as [y | e] eqn:Ey; [| discriminate].
    rewrite (reads_for_each xs body Hb c c eq_refl) in Hys.
    destruct (res (for_each xs body c)) as [ys' | e] eqn:Eys; [| discriminate].
    cbn in Hys. injection Hys as <-.
    destruct (IH ys' eq_refl) as [Hlen Hnth]. split; [cbn; now rewrite Hlen |].
    intros [| i] x0 Hx; cbn in Hx.
    + injection Hx as <-. exists y. now split.
    + apply (Hnth i x0 Hx).
Qed.

(** A loop whose body only reads the result stops at the first row whose
    body raises, with that exception. *)
Lemma for_each_first_raise {A B} (body : A -> M B) (xs : list A) c i x e :
  (forall x, reads_response (body x)) ->
  nth_error xs i = Some x ->
  res (body x c) = Raise e ->
  (forall j x', j < i -> nth_error xs j = Some x' -> exists y, res (body x' c) = Return y) ->
  res (for_each xs body c) = Raise e.
Proof.
  intros Hb. revert i. induction xs as [| x0 xs IH]; intros i Hx He Hbefore.
  - destruct i; discriminate.
  - cbn [for_each]. unfold bind. rewrite (Hb x0 c c eq_refl).
    destruct i as [| i]; cbn in Hx.
    + injection Hx as ->. now rewrite He.
    + destruct (Hbefore 0 x0 (Nat.lt_0_succ i) eq_refl) as [y Hy]. rewrite Hy.
      rewrite (reads_for_each xs body Hb c c eq_refl).
      rewrite (IH i Hx He); [reflexivity |].
      intros j x' Hj Hx'. apply (Hbefore (S j) x'); [lia | exact Hx'].
Qed.

(** ** The claims on fetching *)

(** C7.  On an open cursor with no result (nothing, or a falsy payload),
    [fetchone] and [fetchall] of [GlueCursor] and [fetchone] of
    [GlueDictCursor] return [None]; [fetchall] of [GlueDictCursor] raises
    [TypeError], because it walks the [None] that the parent's [fetchall]
    returned. *)
Theorem fetch_without_result (c : GlueCursor) :
  _closed c = false -> Py.truthy (response c) = false ->
  res (fetchone c) = Return PNone
  /\ res (fetchall c) = Return PNone
  /\ res (dict_fetchone c) = Return None
  /\ res (dict_fetchall c) = Raise TypeError.
Proof.
  intros H Ht. repeat split.
  - now rewrite fetchone_no_result.
  - now rewrite fetchall_no_result.
  - unfold dict_fetchone. unfold bind at 1. cbn. unfold bind at 1.
    now rewrite fetchone_no_result.
  - unfold dict_fetchall. unfold bind at 1. cbn. unfold bind at 1.
    now rewrite fetchall_no_result.
Qed.

Lemma columns_no_description c fields :
  response c = PDict fields -> fields <> [] ->
  Py.lookup "description" fields = None ->
  res (columns c) = Raise TypeError.
Proof.
  intros Hr Hne Hd.
  assert (Ht : Py.truthy (response c) = true).
  { rewrite Hr. destruct fields; [contradiction | reflexivity]. }
  unfold columns, bind, self, lift. cbn. rewrite Ht, Hr.
  now rewrite (get_missing _ _ _ Hd).
Qed.

(** C9.  On a cursor whose payload is a dict without a "description" key,
    the [columns] property raises [TypeError] (it walks the [None] that
    [get] returned), while [description()] returns the empty list. *)
Theorem columns_without_description (c : GlueCursor) (fields : list (string * pyval)) :
  response c = PDict fields -> fields <> [] ->
  Py.lookup "description" fields = None ->
  res (columns c) = Raise TypeError
  /\ res (description c) = Return (PList []).
Proof.
  intros Hr Hne Hd. split; [now apply (columns_no_description c fields) |].
  assert (Ht : Py.truthy (response c) = true).
  { rewrite Hr. destruct fields; [contradiction | reflexivity]. }
  unfold description, bind, self, lift, debug. cbn. rewrite Ht, Hr.
  now rewrite (get_missing _ _ _ Hd).
Qed.

(** *** Calls of [fetchone] in a row *)

Lemma fetchone_times_add a b c :
  fetchone_times (a + b) c
  = (fst (fetchone_times b (fst (fetchone_times a c))),
     snd (fetchone_times a c) ++ snd (fetchone_times b (fst (fetchone_times a c)))).
Proof.
  revert c. induction a as [| a IH]; intros c.
  - cbn. now destruct (fetchone_times b c).
  - cbn [Nat.add fetchone_times fst snd]. rewrite IH. reflexivity.
Qed.

Lemma skipn_cons_nth {A} (l : list A) i x :
  nth_error l i = Some x -> skipn i l = x :: skipn (S i) l.
Proof.
  revert i. induction l as [| y l IH]; intros [| i] H; try discriminate.
  - now injection H as ->.
  - cbn in H. cbn [skipn]. now rewrite (IH i H).
Qed.

(** From row [i] on: the rows left, in order, then [None] and the index
    reset. *)
Lemma fetchone_from c rows recs :
  _closed c = false -> Py.truthy (response c) = true ->
  Py.get (response c) "results" PNone = Return (PList rows) ->
  res (for_each rows project_row c) = Return recs ->
  forall d i, i + d = length rows ->
    fetchone_times (d + 1) (set_it (position i) c)
    = (set_it None c, map Return (skipn i recs) ++ [Return PNone]).
Proof.
  intros H Ht Hget Hall.
  destruct (for_each_collected project_row rows c recs project_row_reads Hall)
    as [Hlen Hnth].
  induction d as [| d IH]; intros i Hi.
  - cbn [Nat.add fetchone_times]. rewrite fetchone_at, Hget by assumption.
    unfold Py.index.
    assert (E : nth_error rows i = None) by (apply nth_error_None; lia).
    rewrite E. cbn.
    rewrite skipn_all2 by lia. reflexivity.
  - destruct (nth_error rows i) as [row |] eqn:Erow.
    2: { apply nth_error_None in Erow. lia. }
    destruct (Hnth i row Erow) as [rec [Hrec Hproj]].
    cbn [Nat.add fetchone_times]. rewrite fetchone_at, Hget by assumption.
    unfold Py.index. rewrite Erow, Hproj. cbn [after res fst snd].
    replace (Some (i + 1)) with (position (S i)) by (cbn; f_equal; lia).
    specialize (IH (S i) ltac:(lia)). cbn [Nat.add] in IH. rewrite IH.
    cbn [fst snd]. rewrite (skipn_cons_nth recs i rec Hrec). reflexivity.
Qed.

(** C3, as amended.  On an open cursor whose index is at the start and
    whose payload has the rows [rows], when [fetchall] returns the records
    [recs]: there is one record per row, [fetchone] called once more than
    there are rows returns the records in order (an all-null record is a
    record) and then [None] without raising, and this leaves the cursor
    exactly as it was, index at the start: the calls that follow go through
    the same rows again. *)
Theorem fetchone_cycle (c : GlueCursor) (fields : list (string * pyval))
    (rows recs : list pyval) :
  _closed c = false -> _it c = None ->
  response c = PDict fields ->
  Py.lookup "results" fields = Some (PList rows) ->
  res (fetchall c) = Return (PList recs) ->
  length recs = length rows
  /\ (forall i row, nth_error rows i = Some row ->
        exists rec, nth_error recs i = Some rec /\ res (project_row row c) = Return rec)
  /\ fetchone_times (length rows + 1) c = (c, map Return recs ++ [Return PNone])
  /\ forall k,
       fetchone_times (k * (length rows + 1)) c
       = (c, concat (repeat (map Return recs ++ [Return PNone]) k)).
Proof.
  intros H Hit Hr Hl Hall.
  assert (Ht : Py.truthy (response c) = true)
    by (rewrite Hr; apply (truthy_found _ _ _ Hl)).
  assert (Hget : forall d, Py.get (response c) "results" d = Return (PList rows))
    by (intros d; rewrite Hr; apply get_found, Hl).
  rewrite (fetchall_rows c (PList rows) rows H Ht (Hget _) eq_refl) in Hall.
  cbn [res] in Hall.
  destruct (res (for_each rows project_row c)) as [recs' | e] eqn:Erecs; [| discriminate].
  injection Hall as ->.
  destruct (for_each_collected project_row rows c recs project_row_reads Erecs)
    as [Hlen Hnth].
  assert (Hone : fetchone_times (length rows + 1) c = (c, map Return recs ++ [Return PNone])).
  { pose proof (fetchone_from c rows recs H Ht (Hget _) Erecs (length rows) 0 eq_refl) as E.
    cbn [position skipn] in E. rewrite <- Hit in E. rewrite set_it_same in E. exact E. }
  repeat split; try assumption.
  induction k as [| k IH].
  - reflexivity.
  - cbn [Nat.mul repeat concat]. rewrite fetchone_times_add, Hone. cbn [fst snd].
    now rewrite IH.
Qed.

(** *** What [fetchone] swallows and [fetchall] lets through *)

Lemma project_row_columns_raise item c e :
  res (columns c) = Raise e -> res (project_row item c) = Raise e.
Proof.
  intros Hc. unfold project_row, bind.
  rewrite (columns_reads c c eq_refl), Hc. reflexivity.
Qed.

Lemma fetchone_row_columns_raise c e :
  res (columns c) = Raise e -> forall v, res (fetchone_row c) <> Return v.
Proof.
  intros Hc v. unfold fetchone_row, bind, self, lift. cbn.
  destruct (Py.get (response c) "results" PNone) as [rs | e1]; [| discriminate].
  destruct (Py.index rs (it_value (_it c))) as [item | e1]; [| discriminate].
  rewrite (project_row_reads item c c eq_refl), (project_row_columns_raise item c e Hc).
  discriminate.
Qed.

Lemma fetchone_returns c :
  _closed c = false -> Py.truthy (response c) = true ->
  (exists v, res (fetchone c) = Return v)
  /\ forall e, res (fetchone_row (with_index c)) = Raise e ->
       res (fetchone c) = Return PNone /\ _it (after (fetchone c)) = None.
Proof.
  intros H Ht. rewrite (fetchone_try c H Ht). cbv zeta.
  destruct (res (fetchone_row (with_index c))) as [v | e0]; cbn.
  - split; [now exists v | discriminate].
  - split; [now exists PNone | auto].
Qed.

(** C10, as amended.  On an open cursor with a non-empty dict as payload:
    [fetchone] never raises, and whatever its [try] block raises comes out
    as [None] with the index reset, like the end of the rows.  [fetchall]
    has no handler: with a list of rows, the exception of the first row
    that cannot be projected is raised to the caller (so is the
    [TypeError] of every row when the description is missing), and so is
    the exception of walking a "results" value that cannot be walked.  A
    payload without a "results" key is different: [fetchall] takes the
    empty list for it and returns no rows, while [fetchone] swallows the
    [TypeError] of indexing [None]. *)
Theorem fetchone_swallows_fetchall_raises (c : GlueCursor)
    (fields : list (string * pyval)) :
  _closed c = false -> response c = PDict fields -> fields <> [] ->
  (exists v, res (fetchone c) = Return v)
  /\ (forall e, res (fetchone_row (with_index c)) = Raise e ->
        res (fetchone c) = Return PNone /\ _it (after (fetchone c)) = None)
  /\ (forall rows i row e,
        Py.lookup "results" fields = Some (PList rows) ->
        nth_error rows i = Some row ->
        res (project_row row c) = Raise e ->
        (forall j row', j < i -> nth_error rows j = Some row' ->
           exists rec, res (project_row row' c) = Return rec) ->
        res (fetchall c) = Raise e
        /\ res (fetchone (set_it (position i) c)) = Return PNone
        /\ _it (after (fetchone (set_it (position i) c))) = None)
  /\ (forall row rows,
        Py.lookup "results" fields = Some (PList (row :: rows)) ->
        Py.lookup "description" fields = None ->
        res (fetchall c) = Raise TypeError /\ res (fetchone c) = Return PNone)
  /\ (forall v e,
        Py.lookup "results" fields = Some v -> Py.iter v = Raise e ->
        res (fetchall c) = Raise e /\ res (fetchone c) = Return PNone)
  /\ (Py.lookup "results" fields = None ->
        res (fetchall c) = Return (PList [])
        /\ res (fetchone_row (with_index c)) = Raise TypeError
        /\ res (fetchone c) = Return PNone).
Proof.
  intros H Hr Hne.
  assert (Ht : Py.truthy (response c) = true).
  { rewrite Hr. destruct fields; [contradiction | reflexivity]. }
  destruct (fetchone_returns c H Ht) as [Hret Hswallow].
  split; [exact Hret |]. split; [exact Hswallow |].
  split; [| split; [| split]].
  - intros rows i row e Hl Hrow He Hbefore.
    assert (Hget : forall d, Py.get (response c) "results" d = Return (PList rows))
      by (intros d; rewrite Hr; apply get_found, Hl).
    rewrite (fetchall_rows c (PList rows) rows H Ht (Hget _) eq_refl).
    rewrite (for_each_first_raise project_row rows c i row e project_row_reads
               Hrow He Hbefore).
    rewrite (fetchone_at c i H Ht), Hget. unfold Py.index. rewrite Hrow, He.
    repeat split.
  - intros row rows Hl Hd.
    assert (Hget : forall d, Py.get (response c) "results" d = Return (PList (row :: rows)))
      by (intros d; rewrite Hr; apply get_found, Hl).
    pose proof (columns_no_description c fields Hr Hne Hd) as Hc.
    split.
    + rewrite (fetchall_rows c _ (row :: rows) H Ht (Hget _) eq_refl).
      rewrite (for_each_first_raise project_row (row :: rows) c 0 row TypeError
                 project_row_reads eq_refl (project_row_columns_raise row c _ Hc));
        [reflexivity | intros j row' Hj; lia].
    + destruct (res (fetchone_row (with_index c))) as [v | e] eqn:E.
      * exfalso. apply (fetchone_row_columns_raise (with_index c) TypeError) in E; [exact E |].
        rewrite (columns_reads c (with_index c)); [exact Hc |].
        unfold with_index. now destruct (it_unset (_it c)).
      * apply (Hswallow e eq_refl).
  - intros v e Hl Hi.
    assert (Hget : forall d, Py.get (response c) "results" d = Return v)
      by (intros d; rewrite Hr; apply get_found, Hl).
    split; [now rewrite (fetchall_not_walkable c v e H Ht (Hget _) Hi) |].
    assert (E : exists e', res (fetchone_row (with_index c)) = Raise e').
    { unfold fetchone_row, bind, self, lift. cbn.
      replace (response (with_index c)) with (response c)
        by (unfold with_index; now destruct (it_unset (_it c))).
      rewrite Hget.
      destruct v; unfold Py.iter in Hi; try discriminate; unfold Py.index; cbn; eauto. }
    destruct E as [e' E]. apply (Hswallow e' E).
  - intros Hl.
    assert (E : res (fetchone_row (with_index c)) = Raise TypeError).
    { unfold fetchone_row, bind, self, lift. cbn.
      replace (response (with_index c)) with (response c)
        by (unfold with_index; now destruct (it_unset (_it c))).
      rewrite Hr, (get_missing _ _ _ Hl). reflexivity. }
    split; [| split; [exact E | apply (Hswallow _ E)]].
    rewrite (fetchall_rows c (PList []) [] H Ht); [reflexivity | | reflexivity].
    rewrite Hr. apply get_missing, Hl.
Qed.

(** The accessors on a cursor that holds a dict as payload. *)
Lemma rowcount_of_payload c :
  res (rowcount c)
  = if Py.truthy (response c) then Py.get (response c) "rowcount" PNone else Return PNone.
Proof.
  unfold rowcount, bind, self, lift, ret. cbn. now destruct (Py.truthy (response c)).
Qed.

Lemma for_each_lift_names cols names c :
  Forall2 (fun col n => Py.get col "name" PNone = Return n) cols names ->
  for_each cols (fun column => lift (Py.get column "name" PNone)) c
  = mkOut c [] (Return names).
Proof.
  induction 1 as [| col n cols names Hn _ IH]; [reflexivity |].
  cbn [for_each]. unfold bind, lift at 1. rewrite Hn, IH. reflexivity.
Qed.

Lemma columns_of_payload c fields cols names :
  response c = PDict fields ->
  Py.lookup "description" fields = Some (PList cols) ->
  Forall2 (fun col n => Py.get col "name" PNone = Return n) cols names ->
  res (columns c) = Return (PList names).
Proof.
  intros Hr Hd Hn. unfold columns. unfold bind at 1, self.
  rewrite Hr. cbn [response]. rewrite (truthy_found _ _ _ Hd).
  unfold bind at 1, lift at 1. rewrite (get_found _ _ _ _ Hd).
  unfold bind at 1, lift at 1. cbn [Py.iter]. unfold Py.iter.
  unfold bind. rewrite (for_each_lift_names cols names _ Hn). reflexivity.
Qed.

(** ** The comment header *)

Lemma take_drop n s : (PyStr.take n s ++ PyStr.drop n s)%string = s.
Proof.
  revert s. induction n as [| n IH]; intros [| a s]; cbn; try reflexivity.
  now rewrite IH.
Qed.

Lemma substring_here n s p :
  substring 0 n s = p -> String.length p = n -> s = (p ++ PyStr.drop n s)%string.
Proof.
  revert s p. induction n as [| n IH]; intros s p Hp Hlen.
  - destruct s; cbn in Hp; subst p; reflexivity.
  - destruct s as [| a s]; cbn in Hp; subst p; [discriminate |].
    cbn in Hlen. injection Hlen as Hlen. cbn. f_equal. now apply IH.
Qed.

Lemma substring_split m n s p :
  substring m n s = p -> String.length p = n ->
  s = (PyStr.take m s ++ p ++ PyStr.drop (m + n) s)%string.
Proof.
  revert s. induction m as [| m IH]; intros s Hp Hlen.
  - cbn [PyStr.take Nat.add]. cbn. now apply substring_here.
  - destruct s as [| a s].
    + cbn in Hp. subst p. cbn in Hlen. subst n. reflexivity.
    + cbn in Hp. cbn. f_equal. now apply IH.
Qed.

Lemma starts_with_comment text :
  String.eqb (PyStr.take 2 text) "/*" = String.prefix "/*" text.
Proof.
  destruct text as [| a [| b rest]]; cbn -[ascii_dec].
  - reflexivity.
  - destruct (ascii_dec "/" a) as [<- | N]; [reflexivity |].
    destruct (Ascii.eqb_spec a "/"); [congruence | reflexivity].
  - destruct (ascii_dec "/" a) as [<- | N].
    + rewrite Ascii.eqb_refl. destruct (ascii_dec "*" b) as [<- | N];
        [now destruct rest |].
      destruct (Ascii.eqb_spec b "*"); [congruence | reflexivity].
    + destruct (Ascii.eqb_spec a "/"); [congruence | reflexivity].
Qed.

Lemma header_kept text :
  String.prefix "/*" text = false -> header_removed text = Return text.
Proof.
  intros H. unfold header_removed. now rewrite starts_with_comment, H.
Qed.

Lemma header_dropped text e :
  String.prefix "/*" text = true ->
  PyStr.find_opt PyStr.header_end text = Some e ->
  header_removed text = Return (PyStr.drop (e + 3) text).
Proof.
  intros H He. unfold header_removed. now rewrite starts_with_comment, H, He.
Qed.

Lemma header_unterminated text :
  String.prefix "/*" text = true ->
  PyStr.find_opt PyStr.header_end text = None ->
  header_removed text = Raise ValueError.
Proof.
  intros H He. unfold header_removed. now rewrite starts_with_comment, H, He.
Qed.

(** ** What [execute] submits *)

Lemma submission_bind {A B} (m : M A) (k : A -> M B) :
  keeps_submission m -> (forall a, keeps_submission (k a)) ->
  keeps_submission (bind m k).
Proof.
  intros Hm Hk c. unfold bind. specialize (Hm c).
  destruct (m c) as [c1 l1 [a | e]]; cbn in *; [| exact Hm].
  specialize (Hk a c1). destruct (k a c1) as [c2 l2 r2]; cbn in *.
  destruct Hm as (E1 & E2 & E3), Hk as (F1 & F2 & F3). repeat split; congruence.
Qed.

Lemma submission_try {A} (m : M A) (h : exn -> M A) :
  keeps_submission m -> (forall e, keeps_submission (h e)) ->
  keeps_submission (try_except m h).
Proof.
  intros Hm Hh c. unfold try_except. specialize (Hm c).
  destruct (m c) as [c1 l1 [a | e]]; cbn in *; [exact Hm |].
  specialize (Hh e c1). destruct (h e c1) as [c2 l2 r2]; cbn in *.
  destruct Hm as (E1 & E2 & E3), Hh as (F1 & F2 & F3). repeat split; congruence.
Qed.

Lemma submission_kept_by_frame {A} (m : M A) :
  keeps_cursor m -> keeps_submission m.
Proof.
  intros H c. now rewrite (H c).
Qed.

Lemma submission_post : keeps_submission _post.
Proof. now intros c. Qed.

Create HintDb frame.
#[local] Hint Resolve keeps_ret keeps_raise keeps_lift keeps_debug keeps_self : frame.

Ltac submission :=
  repeat first
    [ apply submission_post
    | apply submission_bind; [| intro]
    | apply submission_try; [| intro]
    | match goal with |- keeps_submission (if ?b then _ else _) => destruct b end
    | solve [apply submission_kept_by_frame; auto with frame]
    | solve [intros c; repeat split; reflexivity] ].

Section Submission.

Variable json_loads : string -> result pyval.
Variable dedent : string -> string.

Lemma settle_keeps_submission r : keeps_submission (settle json_loads r).
Proof.
  unfold settle, on_available, on_error, on_cancelled, record_payload, report_not_ok.
  submission.
Qed.

Lemma execute_submission c text stripped remote :
  _closed c = false -> _is_running c = false ->
  header_removed text = Return stripped ->
  let o := execute json_loads dedent text remote c in
  sql (after o) = PStr stripped
  /\ code (after o) = PStr (submission_code dedent stripped)
  /\ option_map stmt_code (statement (after o)) = Some (submission_code dedent stripped).
Proof.
  intros H H' Hh o. subst o. destruct remote as [r | e].
  - destruct (statement_field r "State" (PStr GlueCursorState.WAITING)) as [st | e] eqn:Es.
    + rewrite (execute_answered json_loads dedent c text stripped r st H H' Hh Es).
      cbv zeta. cbn [after].
      destruct (settle_keeps_submission r (answered dedent stripped st c)) as (-> & -> & ->).
      repeat split.
    + rewrite (execute_bad_answer json_loads dedent c text stripped r e H H' Hh Es).
      repeat split.
  - rewrite (execute_unanswered json_loads dedent c text stripped e H H' Hh).
    repeat split.
Qed.

End Submission.

Section Recorded.

Variable json_loads : string -> result pyval.
Variable dedent : string -> string.

Lemma settle_ok_first_line r c output status text chunk others e1 v :
  state c = PStr GlueCursorState.AVAILABLE ->
  statement_field r "Output" (PDict []) = Return output ->
  Py.get output "Status" PNone = Return status ->
  Py.eq_str status "ok" = true ->
  text_plain output = Return text ->
  json_loads text = Raise e1 ->
  PyStr.split PyStr.nl text = chunk :: others ->
  json_loads chunk = Return v ->
  settle json_loads r c
  = mkOut (set_response v (set_is_running false (set_it None c))) [] (Return v).
Proof.
  intros Hs Ho Hst Hok Ht H1 Hc H2.
  unfold settle, on_available, on_error, on_cancelled, record_payload, bind,
    try_except, self, _post, update, raise, ret, lift, debug.
  cbn. rewrite Hs. cbn. rewrite Ho, Hst, Hok, Ht, H1. cbn. rewrite Hc. cbn.
  rewrite H2. cbn. repeat (rewrite Hs; cbn). reflexivity.
Qed.

End Recorded.

(** ** The claims on fetching, on the sample session *)

(** C3 as stated fails: with two rows, the third call returns [None] and
    the fourth returns the first row again. *)
Lemma fetchone_restarts_after_exhaustion :
  snd (fetchone_times 4 Sample.loaded)
  = [Return (PList [PInt 1; PStr "a"]); Return (PList [PNone; PNone]);
     Return PNone; Return (PList [PInt 1; PStr "a"])].
Proof. vm_compute. reflexivity. Qed.

Lemma fetchone_cycle_witness :
  fetchone_times 3 Sample.loaded
  = (Sample.loaded,
     [Return (PList [PInt 1; PStr "a"]); Return (PList [PNone; PNone]); Return PNone]).
Proof.
  exact (proj1 (proj2 (proj2
           (fetchone_cycle Sample.loaded Sample.fields Sample.rows Sample.records
              eq_refl eq_refl eq_refl eq_refl eq_refl)))).
Defined.

(** C6 as stated fails: the payload says "rowcount": 5 and has no rows. *)
Lemma rowcount_is_not_the_number_of_rows :
  let c := Sample.holding Sample.odd_text in
  response c = PDict Sample.odd_fields
  /\ Py.lookup "results" Sample.odd_fields = Some (PList [])
  /\ res (rowcount c) = Return (PInt 5)
  /\ res (fetchall c) = Return (PList []).
Proof. cbv zeta. repeat split; vm_compute; reflexivity. Qed.

(** C7, failing input: [fetchall] of [GlueDictCursor] on a cursor just
    created. *)
Lemma fetch_without_result_witness :
  res (fetchone Sample.fresh) = Return PNone
  /\ res (fetchall Sample.fresh) = Return PNone
  /\ res (dict_fetchone Sample.fresh) = Return None
  /\ res (dict_fetchall Sample.fresh) = Raise TypeError.
Proof.
  exact (fetch_without_result Sample.fresh eq_refl eq_refl).
Defined.

(** C9, failing input: a payload with rows and no "description". *)
Lemma columns_without_description_witness :
  res (columns (Sample.holding Sample.bare_text)) = Raise TypeError
  /\ res (description (Sample.holding Sample.bare_text)) = Return (PList []).
Proof.
  apply (columns_without_description (Sample.holding Sample.bare_text) Sample.bare_fields
           eq_refl); [discriminate | reflexivity].
Defined.

(** C10 as stated fails: on a payload without "results" the [try] block of
    [fetchone] raises [TypeError], which [fetchone] swallows, and [fetchall]
    raises nothing: it returns the empty list. *)
Lemma fetchall_default_hides_missing_results :
  let c := Sample.holding Sample.rowless_text in
  _closed c = false
  /\ response c = PDict Sample.rowless_fields
  /\ res (fetchone_row (with_index c)) = Raise TypeError
  /\ res (fetchone c) = Return PNone
  /\ res (fetchall c) = Return (PList []).
Proof. cbv zeta. repeat split; vm_compute; reflexivity. Qed.

Lemma fetchone_swallows_fetchall_raises_witness :
  let c := Sample.holding Sample.bare_text in
  res (fetchall c) = Raise TypeError /\ res (fetchone c) = Return PNone.
Proof.
  cbv zeta.
  assert (Hne : Sample.bare_fields <> []) by discriminate.
  destruct (fetchone_swallows_fetchall_raises (Sample.holding Sample.bare_text)
              Sample.bare_fields eq_refl eq_refl Hne) as (_ & _ & _ & T & _).
  exact (T _ _ eq_refl eq_refl).
Defined.

(** ** The claims on the guards and on the submission, on the sample session *)

Lemma cursor_guards_witness :
  res (execute Sample.loads Sample.dedent "select 2"
         (Sample.answer GlueCursorState.AVAILABLE (Sample.ok_output Sample.payload_text))
         Sample.running)
  = Raise (InternalException (Some "CursorAlreadyRunning"))
  /\ res (fetchone Sample.shut) = Raise (Exception "CursorClosed")
  /\ res (close Sample.shut) = Raise (Exception "CursorAlreadyClosed")
  /\ _closed (perform_all Sample.loads Sample.dedent Sample.adapter_response
               [CallClose; CallExecute "select 2" (Sample.answer GlueCursorState.AVAILABLE
                                                      (Sample.ok_output Sample.payload_text));
                CallFetchall] Sample.shut) = true.
Proof.
  split.
  - apply (cursor_guards Sample.loads Sample.dedent Sample.adapter_response
             Sample.running "select 2" "select 2" _ []); reflexivity.
  - destruct (cursor_guards Sample.loads Sample.dedent Sample.adapter_response
                Sample.shut "select 2" "select 2"
                (Sample.answer GlueCursorState.AVAILABLE (Sample.ok_output Sample.payload_text))
                [CallClose; CallExecute "select 2" (Sample.answer GlueCursorState.AVAILABLE
                                                       (Sample.ok_output Sample.payload_text));
                 CallFetchall])
      as (_ & _ & T & _).
    destruct (T eq_refl) as (_ & T1 & _ & _ & _ & T2 & T3).
    repeat split; assumption.
Defined.

(** * Further facts *)

(** ** What the methods leave unchanged *)

Lemma frame_moves_index {A} (m : M A) : keeps_cursor m -> moves_index_only m.
Proof.
  intros H c. exists (_it c). now rewrite (H c), set_it_same.
Qed.

Lemma moves_index_bind {A B} (m : M A) (k : A -> M B) :
  moves_index_only m -> (forall a, moves_index_only (k a)) ->
  moves_index_only (bind m k).
Proof.
  intros Hm Hk c. unfold bind. destruct (Hm c) as [i Hi].
  destruct (m c) as [c1 l1 [a | e]]; cbn in *; subst c1; [| now exists i].
  destruct (Hk a (set_it i c)) as [j Hj].
  destruct (k a (set_it i c)) as [c2 l2 r2]; cbn in *. now exists j.
Qed.

Lemma moves_index_try {A} (m : M A) (h : exn -> M A) :
  moves_index_only m -> (forall e, moves_index_only (h e)) ->
  moves_index_only (try_except m h).
Proof.
  intros Hm Hh c. unfold try_except. destruct (Hm c) as [i Hi].
  destruct (m c) as [c1 l1 [a | e]]; cbn in *; subst c1; [now exists i |].
  destruct (Hh e (set_it i c)) as [j Hj].
  destruct (h e (set_it i c)) as [c2 l2 r2]; cbn in *. now exists j.
Qed.

Lemma moves_index_update i : moves_index_only (update (set_it i)).
Proof. intros c. now exists i. Qed.

Lemma fetchall_keeps : keeps_cursor fetchall.
Proof.
  apply keeps_bind; [apply keeps_debug |]. intros _.
  apply keeps_bind; [apply keeps_self |]. intros c0.
  destruct (closed c0); [apply keeps_raise |].
  destruct (Py.truthy (response c0)); [| apply keeps_ret].
  apply keeps_bind; [apply keeps_lift |]. intros rs.
  apply keeps_bind; [apply keeps_lift |]. intros items.
  apply keeps_bind; [| intros records; apply keeps_ret].
  apply keeps_for_each. intros item. apply reads_keeps, project_row_reads.
Qed.

Lemma dict_record_keeps item : keeps_cursor (dict_record item).
Proof.
  apply keeps_bind; [apply reads_keeps, columns_reads |]. intros names.
  apply keeps_bind; [apply keeps_lift |]. intros cols. apply keeps_lift.
Qed.

Lemma dict_fetchall_keeps : keeps_cursor dict_fetchall.
Proof.
  apply keeps_bind; [apply keeps_debug |]. intros _.
  apply keeps_bind; [apply fetchall_keeps |]. intros records.
  apply keeps_bind; [apply keeps_lift |]. intros items.
  apply keeps_for_each. intros item. apply dict_record_keeps.
Qed.

Lemma fetchone_row_moves_index : moves_index_only fetchone_row.
Proof.
  apply moves_index_bind; [apply frame_moves_index, keeps_self |]. intros c0.
  apply moves_index_bind; [apply frame_moves_index, keeps_lift |]. intros rs.
  apply moves_index_bind; [apply frame_moves_index, keeps_lift |]. intros item.
  apply moves_index_bind; [apply frame_moves_index, reads_keeps, project_row_reads |].
  intros record.
  apply moves_index_bind; [apply frame_moves_index, keeps_self |]. intros c1.
  apply moves_index_bind; [apply moves_index_update |]. intros _.
  apply frame_moves_index, keeps_ret.
Qed.

Lemma fetchone_moves_index : moves_index_only fetchone.
Proof.
  apply moves_index_bind; [apply frame_moves_index, keeps_debug |]. intros _.
  apply moves_index_bind; [apply frame_moves_index, keeps_self |]. intros c0.
  destruct (closed c0); [apply frame_moves_index, keeps_raise |].
  destruct (Py.truthy (response c0)); [| apply frame_moves_index, keeps_ret].
  apply moves_index_bind.
  - destruct (it_unset (_it c0));
      [apply moves_index_update | apply frame_moves_index, keeps_ret].
  - intros _. apply moves_index_try; [apply fetchone_row_moves_index |].
    intros e. apply moves_index_bind; [apply moves_index_update |]. intros _.
    apply frame_moves_index, keeps_ret.
Qed.

Lemma next_moves_index : moves_index_only __next__.
Proof.
  apply moves_index_bind; [apply fetchone_moves_index |]. intros item.
  destruct (negb (Py.truthy item)); apply frame_moves_index;
    [apply keeps_raise | apply keeps_ret].
Qed.

Lemma dict_fetchone_moves_index : moves_index_only dict_fetchone.
Proof.
  apply moves_index_bind; [apply frame_moves_index, keeps_debug |]. intros _.
  apply moves_index_bind; [apply fetchone_moves_index |]. intros item.
  destruct (negb (Py.truthy item)); [apply frame_moves_index, keeps_ret |].
  apply moves_index_bind; [apply frame_moves_index, dict_record_keeps |].
  intros data. apply frame_moves_index, keeps_ret.
Qed.

(** X8.  [fetchall] of both cursor classes, [rowcount], [columns] and
    [description()] leave the cursor exactly as it was, whatever they
    return or raise: in particular [fetchall] does not move the index of
    [fetchone].  [fetchone] of both classes and [__next__] change nothing
    but that index. *)
Theorem fetch_frame (c : GlueCursor) :
  after (fetchall c) = c
  /\ after (dict_fetchall c) = c
  /\ after (rowcount c) = c
  /\ after (columns c) = c
  /\ after (description c) = c
  /\ (exists i, after (fetchone c) = set_it i c)
  /\ (exists i, after (dict_fetchone c) = set_it i c)
  /\ (exists i, after (__next__ c) = set_it i c)
  /\ fetchone (after (fetchall c)) = fetchone c.
Proof.
  repeat split.
  - apply fetchall_keeps.
  - apply dict_fetchall_keeps.
  - apply (reads_keeps _ rowcount_reads).
  - apply (reads_keeps _ columns_reads).
  - apply description_keeps.
  - apply fetchone_moves_index.
  - apply dict_fetchone_moves_index.
  - apply next_moves_index.
  - now rewrite fetchall_keeps.
Qed.

(** ** The running flag *)

Lemma idle_bind {A B} (m : M A) (k : A -> M B) :
  stays_idle m -> (forall a, stays_idle (k a)) -> stays_idle (bind m k).
Proof.
  intros Hm Hk c Hc. unfold bind. specialize (Hm c Hc).
  destruct (m c) as [c1 l1 [a | e]]; cbn in *; [| exact Hm].
  specialize (Hk a c1 Hm). now destruct (k a c1).
Qed.

Lemma idle_try {A} (m : M A) (h : exn -> M A) :
  stays_idle m -> (forall e, stays_idle (h e)) -> stays_idle (try_except m h).
Proof.
  intros Hm Hh c Hc. unfold try_except. specialize (Hm c Hc).
  destruct (m c) as [c1 l1 [a | e]]; cbn in *; [exact Hm |].
  specialize (Hh e c1 Hm). now destruct (h e c1).
Qed.

Lemma idle_frame {A} (m : M A) : keeps_cursor m -> stays_idle m.
Proof. intros H c Hc. now rewrite (H c). Qed.

Lemma idle_post : stays_idle _post.
Proof. now intros c _. Qed.

Lemma post_stops c : _is_running (after (_post c)) = false.
Proof. reflexivity. Qed.

Ltac idle :=
  repeat first
    [ apply idle_post
    | apply idle_bind; [| intro]
    | apply idle_try; [| intro]
    | match goal with |- stays_idle (if ?b then _ else _) => destruct b end
    | solve [apply idle_frame; auto with frame]
    | solve [let x := fresh in let H := fresh in intros x H; exact H] ].

Section Running.

Variable json_loads : string -> result pyval.
Variable dedent : string -> string.
Variable AdapterResponse : string -> pyval -> pyval -> result pyval.

Lemma record_payload_idle output : stays_idle (record_payload json_loads output).
Proof. unfold record_payload. idle. Qed.

Lemma report_not_ok_idle status output : stays_idle (report_not_ok status output).
Proof. unfold report_not_ok. idle. Qed.

Lemma on_error_idle : stays_idle on_error.
Proof. unfold on_error. idle. Qed.

Lemma on_cancelled_idle : stays_idle on_cancelled.
Proof. unfold on_cancelled. idle. Qed.

Lemma post_then_idle {A} (k : unit -> M A) c :
  (forall u, stays_idle (k u)) ->
  _is_running (after (bind _post k c)) = false.
Proof.
  intros Hk. unfold bind at 1.
  destruct (_post c) as [c1 l1 [[] | e]] eqn:E.
  - assert (H1 : _is_running c1 = false)
      by (change c1 with (after (mkOut c1 l1 (Return tt))); now rewrite <- E).
    specialize (Hk tt c1 H1). now destruct (k tt c1).
  - discriminate E.
Qed.

(** When the state is [AVAILABLE], [settle] stops the cursor before it
    looks at the output. *)
Lemma settle_available_stops r c :
  state c = PStr GlueCursorState.AVAILABLE ->
  _is_running (after (settle json_loads r c)) = false.
Proof.
  intros Hs. unfold settle.
  assert (Ha : _is_running (after (on_available json_loads r c)) = false).
  { unfold on_available. unfold bind at 1, self. rewrite Hs.
    change (Py.eq_str (PStr GlueCursorState.AVAILABLE) GlueCursorState.AVAILABLE) with true.
    cbv iota.
    match goal with |- context [bind _post ?k c] =>
      pose proof (post_then_idle k c) as E; destruct (bind _post k c) as [c1 l1 r1] end.
    apply E. intros u. idle. }
  assert (Hrest : stays_idle (on_error ;; on_cancelled ;; c0 <- self ;; ret (response c0))).
  { idle. }
  unfold bind at 1. specialize (Hrest (after (on_available json_loads r c)) Ha).
  destruct (on_available json_loads r c) as [c1 l1 [u | e]]; cbn in *; [| exact Ha].
  match goal with |- context [match ?x with mkOut _ _ _ => _ end] =>
    destruct x as [c2 l2 r2] end.
  exact Hrest.
Qed.

Lemma settle_keeps_closed r c :
  _closed (after (settle json_loads r c)) = _closed c.
Proof.
  destruct (state c) as [| b | n | s | l | f] eqn:Es;
    try (rewrite settle_other by (rewrite Es; reflexivity); reflexivity).
  destruct (String.eqb s GlueCursorState.ERROR) eqn:E1.
  { apply String.eqb_eq in E1. subst s. now rewrite settle_error. }
  destruct (String.eqb s GlueCursorState.CANCELLED) eqn:E2.
  { apply String.eqb_eq in E2. subst s. rewrite settle_cancelled by auto. reflexivity. }
  destruct (String.eqb s GlueCursorState.CANCELLING) eqn:E3.
  { apply String.eqb_eq in E3. subst s. rewrite settle_cancelled by auto. reflexivity. }
  destruct (String.eqb s GlueCursorState.AVAILABLE) eqn:E4.
  2: { rewrite settle_other by (rewrite Es; assumption). reflexivity. }
  apply String.eqb_eq in E4. subst s. clear E1 E2 E3.
  unfold settle, on_available, on_error, on_cancelled, record_payload, report_not_ok,
    bind, try_except, self, _post, update, lift, raise, ret, debug.
  cbn. rewrite Es. cbn.
  repeat match goal with
         | |- context [match ?x with Return _ => _ | Raise _ => _ end] =>
             destruct x; cbn; rewrite ?Es; cbn
         | |- context [if ?b then _ else _] => destruct b; cbn; rewrite ?Es; cbn
         end; reflexivity.
Qed.

Lemma execute_keeps_closed c text remote :
  _closed (after (execute json_loads dedent text remote c)) = _closed c.
Proof.
  destruct (_closed c) eqn:H; [now rewrite execute_closed |].
  destruct (_is_running c) eqn:H'; [now rewrite execute_running |].
  destruct (header_removed text) as [stripped | e] eqn:Hh.
  2: { now rewrite (execute_bad_header json_loads dedent c text remote e H H' Hh). }
  destruct remote as [r | e].
  2: { now rewrite (execute_unanswered json_loads dedent c text stripped e H H' Hh). }
  destruct (statement_field r "State" (PStr GlueCursorState.WAITING)) as [st | e] eqn:Es.
  2: { now rewrite (execute_bad_answer json_loads dedent c text stripped r e H H' Hh Es). }
  rewrite (execute_answered json_loads dedent c text stripped r st H H' Hh Es).
  cbv zeta. cbn [after]. now rewrite settle_keeps_closed.
Qed.

(** X3.  Whenever the statement comes back in one of the four terminal
    states, [execute] leaves the cursor idle and open, whether it returns
    or raises, also when the output is malformed: the next [execute] is let
    through its guards and stores its own text. *)
Theorem terminal_state_stops (c : GlueCursor) (text stripped : string) (r : pyval)
    (st : string) :
  _closed c = false -> _is_running c = false ->
  header_removed text = Return stripped ->
  statement_field r "State" (PStr GlueCursorState.WAITING) = Return (PStr st) ->
  In st [GlueCursorState.AVAILABLE; GlueCursorState.ERROR;
         GlueCursorState.CANCELLED; GlueCursorState.CANCELLING] ->
  let o := execute json_loads dedent text (Return r) c in
  _is_running (after o) = false
  /\ _closed (after o) = false
  /\ forall text' stripped' remote',
       header_removed text' = Return stripped' ->
       sql (after (execute json_loads dedent text' remote' (after o))) = PStr stripped'.
Proof.
  intros H H' Hh Hs Hst o.
  assert (Hrun : _is_running (after o) = false).
  { subst o. rewrite (execute_answered json_loads dedent c text stripped r _ H H' Hh Hs).
    cbv zeta. cbn [after].
    destruct Hst as [<- | [<- | [<- | [<- | []]]]].
    - now apply settle_available_stops.
    - now rewrite settle_error.
    - rewrite settle_cancelled by (now left). reflexivity.
    - rewrite settle_cancelled by (now right). reflexivity. }
  assert (Hopen : _closed (after o) = false)
    by (subst o; now rewrite execute_keeps_closed).
  split; [exact Hrun |]. split; [exact Hopen |].
  intros text' stripped' remote' Hh'.
  apply (execute_submission json_loads dedent (after o) text' stripped' remote'
           Hopen Hrun Hh').
Qed.

(** X1.  When the statement comes back [CANCELLED] or [CANCELLING],
    [execute] raises a [DatabaseException] whose message names the session
    of the connection and the statement identifier of the cursor; the
    cursor is left idle, with no cached result, its state the one that
    came back. *)
Theorem execute_cancelled (c : GlueCursor) (text stripped : string) (r : pyval)
    (st : string) :
  _closed c = false -> _is_running c = false ->
  header_removed text = Return stripped ->
  statement_field r "State" (PStr GlueCursorState.WAITING) = Return (PStr st) ->
  st = GlueCursorState.CANCELLED \/ st = GlueCursorState.CANCELLING ->
  let o := execute json_loads dedent text (Return r) c in
  res o = Raise (DatabaseException
                   [Lit "Statement "; Fmt (session_id (connection c)); Lit ".";
                    Fmt (statement_id c); Lit " cancelled."])
  /\ _is_running (after o) = false
  /\ response (after o) = PNone
  /\ state (after o) = PStr st.
Proof.
  intros H H' Hh Hs Hst o. subst o.
  rewrite (execute_answered json_loads dedent c text stripped r _ H H' Hh Hs).
  rewrite settle_cancelled by (destruct Hst as [-> | ->]; auto).
  repeat split.
Qed.

(** A call on a running cursor leaves it running. *)
Lemma perform_running k c :
  _is_running c = true ->
  _is_running (perform json_loads dedent AdapterResponse k c) = true.
Proof.
  intros H.
  assert (Hmove : forall A (m : M A), moves_index_only m -> _is_running (after (m c)) = true).
  { intros A m Hm. destruct (Hm c) as [i ->]. exact H. }
  destruct k; unfold perform.
  - destruct (_closed c) eqn:Hc; [now rewrite execute_closed | now rewrite execute_running].
  - apply Hmove, fetchone_moves_index.
  - now rewrite fetchall_keeps.
  - apply Hmove, next_moves_index.
  - now rewrite (reads_keeps _ rowcount_reads).
  - now rewrite (reads_keeps _ columns_reads).
  - now rewrite description_keeps.
  - now rewrite get_response_keeps.
  - destruct (_closed c) eqn:Hc; [now rewrite close_closed | now rewrite close_open].
  - apply Hmove, dict_fetchone_moves_index.
  - now rewrite dict_fetchall_keeps.
Qed.

(** X2.  The running flag is only ever cleared inside [execute], and
    [execute] refuses a running cursor: once a cursor is running, it is
    running after every sequence of calls, and every later [execute]
    raises, [CursorAlreadyRunning] or, once the cursor is closed,
    [CursorClosed]. *)
Theorem running_cursor_is_stuck (c : GlueCursor) (ks : list call)
    (text : string) (remote : result pyval) :
  _is_running c = true ->
  let c' := perform_all json_loads dedent AdapterResponse ks c in
  _is_running c' = true
  /\ (res (execute json_loads dedent text remote c')
      = Raise (InternalException (Some "CursorAlreadyRunning"))
      \/ res (execute json_loads dedent text remote c')
         = Raise (Exception "CursorClosed")).
Proof.
  intros H c'.
  assert (Hrun : _is_running c' = true).
  { subst c'. unfold perform_all. revert c H.
    induction ks as [| k ks IH]; intros c H; [exact H |].
    cbn [fold_left]. apply IH. now apply perform_running. }
  split; [exact Hrun |].
  destruct (_closed c') eqn:Hc.
  - right. now rewrite execute_closed.
  - left. now rewrite execute_running.
Qed.

(** X4.  A statement that is not in a terminal state when the service
    answers (any state other than the four terminal ones, [WAITING] taken
    for an answer without a state) makes [execute] return [None] with the
    cursor still running; so does, with the exception raised, a service
    that raises.  In both cases the cursor holds no result. *)
Theorem unfinished_statement_leaves_running (c : GlueCursor) (text stripped : string) :
  _closed c = false -> _is_running c = false ->
  header_removed text = Return stripped ->
  (forall r st,
     statement_field r "State" (PStr GlueCursorState.WAITING) = Return st ->
     Py.eq_str st GlueCursorState.AVAILABLE = false ->
     Py.eq_str st GlueCursorState.ERROR = false ->
     Py.eq_str st GlueCursorState.CANCELLED = false ->
     Py.eq_str st GlueCursorState.CANCELLING = false ->
     let o := execute json_loads dedent text (Return r) c in
     res o = Return PNone /\ _is_running (after o) = true /\ response (after o) = PNone)
  /\ (forall fields,
        Py.lookup "Statement" fields = None ->
        statement_field (PDict fields) "State" (PStr GlueCursorState.WAITING)
        = Return (PStr GlueCursorState.WAITING))
  /\ (forall e,
        let o := execute json_loads dedent text (Raise e) c in
        res o = Raise e /\ _is_running (after o) = true /\ response (after o) = PNone).
Proof.
  intros H H' Hh. split; [| split].
  - intros r st Hs H1 H2 H3 H4 o. subst o.
    rewrite (execute_answered json_loads dedent c text stripped r st H H' Hh Hs).
    rewrite settle_other by assumption. repeat split.
  - intros fields Hl. unfold statement_field. now rewrite (get_missing _ _ _ Hl).
  - intros e o. subst o.
    rewrite (execute_unanswered json_loads dedent c text stripped e H H' Hh).
    repeat split.
Qed.

End Running.

(** ** Records: one value per column, in the order of the description *)

Lemma for_each_all {A B} (body : A -> M B) (xs : list A) (ys : list B) c :
  Forall2 (fun x y => body x c = mkOut c [] (Return y)) xs ys ->
  for_each xs body c = mkOut c [] (Return ys).
Proof.
  induction 1 as [| x y xs ys Hx _ IH]; [reflexivity |].
  cbn [for_each]. unfold bind. rewrite Hx, IH. reflexivity.
Qed.

Lemma Forall2_map_both {A B C} (f : A -> B) (g : A -> C) (R : B -> C -> Prop) (l : list A) :
  (forall x, In x l -> R (f x) (g x)) -> Forall2 R (map f l) (map g l).
Proof.
  induction l as [| x l IH]; intros H; cbn; constructor.
  - apply H. now left.
  - apply IH. intros y Hy. apply H. now right.
Qed.

Lemma named_columns c fields cols ss :
  response c = PDict fields ->
  Py.lookup "description" fields = Some (PList cols) ->
  Forall2 named ss cols ->
  res (columns c) = Return (PList (map PStr ss)).
Proof.
  intros Hr Hd Hn. apply (columns_of_payload c fields cols _ Hr Hd).
  clear Hr Hd.
  induction Hn as [| s col ss cols Hs _ IH]; cbn; [constructor | constructor; [exact Hs | exact IH]].
Qed.

Lemma value_of_cell item s :
  row_shaped item = true ->
  match Py.get item "data" (PDict []) with
  | Return d => Py.get_key d (PStr s) PNone
  | Raise e => Raise e
  end = Return (cell item s).
Proof.
  destruct item as [| | | | | f]; try discriminate. cbn [row_shaped cell].
  unfold Py.get. destruct (Py.lookup "data" f) as [[| | | | | d] |]; try discriminate;
    intros _; cbn; unfold Py.get; cbn.
  - now destruct (Py.lookup s d).
  - reflexivity.
Qed.

(** The record of a row that has the expected shape. *)
Lemma project_row_cells c item ss :
  res (columns c) = Return (PList (map PStr ss)) ->
  row_shaped item = true ->
  project_row item c = mkOut c [] (Return (PList (map (cell item) ss))).
Proof.
  intros Hc Hrow. unfold project_row. unfold bind at 1.
  rewrite (columns_reads c c eq_refl), Hc.
  unfold bind at 1, lift at 1. unfold Py.iter. unfold bind at 1.
  rewrite (for_each_all _ (map PStr ss) (map (cell item) ss)); [reflexivity |].
  apply Forall2_map_both. intros s _. unfold bind, lift.
  pose proof (value_of_cell item s Hrow) as E.
  destruct (Py.get item "data" (PDict [])) as [d | e]; [| discriminate].
  now rewrite E.
Qed.

Lemma forallb_In {A} (f : A -> bool) l x : forallb f l = true -> In x l -> f x = true.
Proof. intros H Hx. now apply (proj1 (forallb_forall f l) H). Qed.

(** X5.  With a description whose names are texts and rows that are dicts
    (their "data", when present, a dict), [fetchall] returns one record
    per row, in the order of the rows, and each record holds, in the order
    of the description, the value the row's "data" has for the column, or
    [None] where "data" or the column's key is missing: the order and the
    completeness of the keys in a row do not matter. *)
Theorem fetchall_projects (c : GlueCursor) (fields : list (string * pyval))
    (rows cols : list pyval) (ss : list string) :
  _closed c = false ->
  response c = PDict fields ->
  Py.lookup "results" fields = Some (PList rows) ->
  Py.lookup "description" fields = Some (PList cols) ->
  Forall2 named ss cols ->
  forallb row_shaped rows = true ->
  res (fetchall c) = Return (PList (map (fun row => PList (map (cell row) ss)) rows)).
Proof.
  intros H Hr Hl Hd Hn Hrows.
  assert (Ht : Py.truthy (response c) = true)
    by (rewrite Hr; apply (truthy_found _ _ _ Hl)).
  rewrite (fetchall_rows c (PList rows) rows H Ht);
    [| rewrite Hr; apply get_found, Hl | reflexivity].
  cbn [res].
  rewrite (for_each_all project_row rows
             (map (fun row => PList (map (cell row) ss)) rows)); [reflexivity |].
  rewrite <- (map_id rows) at 1. apply Forall2_map_both. intros row Hin.
  apply project_row_cells; [apply (named_columns c fields cols ss Hr Hd Hn) |].
  apply (forallb_In _ _ _ Hrows Hin).
Qed.

(** ** Iteration *)

Lemma next_at c i :
  _closed c = false -> Py.truthy (response c) = true ->
  __next__ (set_it (position i) c)
  = let o := fetchone (set_it (position i) c) in
    match res o with
    | Return item =>
        if Py.truthy item
        then mkOut (after o) (logs o) (Return item)
        else mkOut (after o) (logs o) (Raise StopIteration)
    | Raise e => mkOut (after o) (logs o) (Raise e)
    end.
Proof.
  intros H Ht. unfold __next__, bind. cbv zeta.
  destruct (fetchone (set_it (position i) c)) as [c1 l1 [item | e]]; cbn; [| reflexivity].
  destruct (Py.truthy item); cbn; now rewrite app_nil_r.
Qed.

Lemma iterate_from c rows recs :
  _closed c = false -> Py.truthy (response c) = true ->
  Py.get (response c) "results" PNone = Return (PList rows) ->
  res (for_each rows project_row c) = Return recs ->
  Forall (fun rec => Py.truthy rec = true) recs ->
  forall d i, i + d = length rows ->
    iterate (d + 1) (set_it (position i) c) = Some (set_it None c, Return (skipn i recs)).
Proof.
  intros H Ht Hget Hall Htrue.
  destruct (for_each_collected project_row rows c recs project_row_reads Hall)
    as [Hlen Hnth].
  induction d as [| d IH]; intros i Hi.
  - cbn [Nat.add iterate]. rewrite next_at by assumption. cbv zeta.
    rewrite fetchone_at, Hget by assumption. unfold Py.index.
    assert (E : nth_error rows i = None) by (apply nth_error_None; lia).
    rewrite E. cbn. rewrite skipn_all2 by lia. reflexivity.
  - destruct (nth_error rows i) as [row |] eqn:Erow.
    2: { apply nth_error_None in Erow. lia. }
    destruct (Hnth i row Erow) as [rec [Hrec Hproj]].
    assert (Hnz : Py.truthy rec = true).
    { rewrite Forall_forall in Htrue. apply Htrue. eapply nth_error_In, Hrec. }
    cbn [Nat.add iterate]. rewrite next_at by assumption. cbv zeta.
    rewrite fetchone_at, Hget by assumption. unfold Py.index.
    rewrite Erow, Hproj. cbn [after res logs]. rewrite Hnz. cbn [after res].
    replace (Some (i + 1)) with (position (S i)) by (cbn; f_equal; lia).
    specialize (IH (S i) ltac:(lia)). cbn [Nat.add] in IH. rewrite IH.
    now rewrite (skipn_cons_nth recs i rec Hrec).
Qed.

(** X6.  Iterating over an open cursor whose index is at the start, when
    [fetchall] returns the records [recs] and none of them is empty
    (all-null records are not empty): [__next__] is called once more than
    there are rows, the loop yields exactly [recs], in order, and the
    cursor is left as it was before the loop. *)
Theorem iterate_yields_records (c : GlueCursor) (fields : list (string * pyval))
    (rows recs : list pyval) :
  _closed c = false -> _it c = None ->
  response c = PDict fields ->
  Py.lookup "results" fields = Some (PList rows) ->
  res (fetchall c) = Return (PList recs) ->
  Forall (fun rec => Py.truthy rec = true) recs ->
  iterate (length rows + 1) c = Some (c, Return recs).
Proof.
  intros H Hit Hr Hl Hall Htrue.
  assert (Ht : Py.truthy (response c) = true)
    by (rewrite Hr; apply (truthy_found _ _ _ Hl)).
  assert (Hget : forall d, Py.get (response c) "results" d = Return (PList rows))
    by (intros d; rewrite Hr; apply get_found, Hl).
  rewrite (fetchall_rows c (PList rows) rows H Ht (Hget _) eq_refl) in Hall.
  cbn [res] in Hall.
  destruct (res (for_each rows project_row c)) as [recs' | e] eqn:Erecs; [| discriminate].
  injection Hall as ->.
  pose proof (iterate_from c rows recs H Ht (Hget _) Erecs Htrue (length rows) 0 eq_refl) as E.
  cbn [position skipn] in E. rewrite <- Hit in E. now rewrite set_it_same in E.
Qed.

(** X7.  With an empty description and at least one row, [fetchall]
    returns one empty record per row, but iteration yields nothing: the
    first [__next__] takes the empty record for the end, raises
    [StopIteration], and leaves the index on the second row. *)
Theorem iterate_without_columns (c : GlueCursor) (fields : list (string * pyval))
    (row : pyval) (rows : list pyval) :
  _closed c = false -> _it c = None ->
  response c = PDict fields ->
  Py.lookup "results" fields = Some (PList (row :: rows)) ->
  Py.lookup "description" fields = Some (PList []) ->
  res (fetchall c) = Return (PList (map (fun _ => PList []) (row :: rows)))
  /\ res (fetchone c) = Return (PList [])
  /\ res (__next__ c) = Raise StopIteration
  /\ iterate 1 c = Some (set_it (Some 1) c, Return []).
Proof.
  intros H Hit Hr Hl Hd.
  assert (Ht : Py.truthy (response c) = true)
    by (rewrite Hr; apply (truthy_found _ _ _ Hl)).
  assert (Hget : forall d, Py.get (response c) "results" d = Return (PList (row :: rows)))
    by (intros d; rewrite Hr; apply get_found, Hl).
  assert (Hc : res (columns c) = Return (PList []))
    by (apply (columns_of_payload c fields [] [] Hr Hd); constructor).
  assert (Hp : forall item, project_row item c = mkOut c [] (Return (PList []))).
  { intros item. unfold project_row. unfold bind at 1.
    rewrite (columns_reads c c eq_refl), Hc. reflexivity. }
  assert (Hone : fetchone c
                 = mkOut (set_it (Some 1) c) [[Lit "GlueCursor fetchone called"]]
                     (Return (PList []))).
  { pose proof (fetchone_at c 0 H Ht) as E. cbn [position] in E.
    rewrite <- Hit, set_it_same in E. rewrite E, Hget. unfold Py.index. cbn [nth_error].
    now rewrite Hp. }
  assert (Hnext : __next__ c
                  = mkOut (set_it (Some 1) c) [[Lit "GlueCursor fetchone called"]]
                      (Raise StopIteration)).
  { unfold __next__, bind. now rewrite Hone. }
  repeat split.
  - rewrite (fetchall_rows c _ (row :: rows) H Ht (Hget _) eq_refl). cbn [res].
    rewrite (for_each_all project_row (row :: rows) (map (fun _ => PList []) (row :: rows)));
      [reflexivity |].
    rewrite <- (map_id (row :: rows)) at 1. apply Forall2_map_both. intros x _. apply Hp.
  - now rewrite Hone.
  - now rewrite Hnext.
  - cbn [iterate]. now rewrite Hnext.
Qed.

(** ** GlueDictCursor: records keyed by column *)

Lemma dict_store_fresh (d : pydict) k v :
  (forall k' v', In (k', v') d -> key_eqb k' k = false) ->
  dict_store d k v = d ++ [(k, v)].
Proof.
  induction d as [| [k0 v0] d IH]; intros H; [reflexivity |].
  cbn [dict_store]. rewrite (H k0 v0 (or_introl eq_refl)). cbn. f_equal.
  apply IH. intros k' v' Hin. apply (H k' v'). now right.
Qed.

Lemma key_row_texts vals ss :
  NoDup ss ->
  forall i data,
    i + length ss <= length vals ->
    (forall k v s, In (k, v) data -> In s ss -> key_eqb k (PStr s) = false) ->
    key_row (PList vals) (enumerate_from i (map PStr ss)) data
    = Return (data ++ combine (map PStr ss) (skipn i vals)).
Proof.
  induction 1 as [| s ss Hs Hnd IH]; intros i data Hlen Hdata.
  - cbn. now rewrite app_nil_r.
  - cbn [map enumerate_from key_row]. unfold Py.index.
    destruct (nth_error vals i) as [v |] eqn:Ev.
    2: { apply nth_error_None in Ev. cbn in Hlen. lia. }
    unfold dict_setitem. cbn [hashable].
    rewrite dict_store_fresh by (intros k' v' Hin; apply (Hdata k' v' s Hin); now left).
    rewrite IH.
    + rewrite (skipn_cons_nth vals i v Ev). cbn [combine]. now rewrite <- app_assoc.
    + cbn in Hlen. lia.
    + intros k v0 s0 Hin Hs0. apply in_app_or in Hin. destruct Hin as [Hin | [E | []]].
      * apply (Hdata k v0 s0 Hin). now right.
      * injection E as <- <-. cbn. apply String.eqb_neq. intros ->. contradiction.
Qed.

Lemma combine_map_both {A B C} (f : A -> B) (g : A -> C) (l : list A) :
  combine (map f l) (map g l) = map (fun x => (f x, g x)) l.
Proof. induction l as [| x l IH]; cbn; [reflexivity | now rewrite IH]. Qed.

(** The record of a row, keyed: every column name with its value. *)
Lemma dict_record_cells c row ss :
  res (columns c) = Return (PList (map PStr ss)) ->
  NoDup ss ->
  dict_record (PList (map (cell row) ss)) c
  = mkOut c [] (Return (map (fun s => (PStr s, cell row s)) ss)).
Proof.
  intros Hc Hnd. unfold dict_record. unfold bind at 1.
  rewrite (columns_reads c c eq_refl), Hc.
  unfold bind, lift, Py.iter, enumerate.
  rewrite (key_row_texts (map (cell row) ss) ss Hnd 0 []).
  - cbn [skipn app]. now rewrite combine_map_both.
  - now rewrite length_map.
  - intros k v s [].
Qed.

Lemma fetchall_records c fields rows cols ss :
  _closed c = false ->
  response c = PDict fields ->
  Py.lookup "results" fields = Some (PList rows) ->
  Py.lookup "description" fields = Some (PList cols) ->
  Forall2 named ss cols ->
  forallb row_shaped rows = true ->
  fetchall c
  = mkOut c [[Lit "GlueCursor fetchall called"]]
      (Return (PList (map (fun row => PList (map (cell row) ss)) rows))).
Proof.
  intros H Hr Hl Hd Hn Hrows.
  assert (Ht : Py.truthy (response c) = true)
    by (rewrite Hr; apply (truthy_found _ _ _ Hl)).
  rewrite (fetchall_rows c (PList rows) rows H Ht);
    [| rewrite Hr; apply get_found, Hl | reflexivity].
  rewrite (for_each_all project_row rows
             (map (fun row => PList (map (cell row) ss)) rows)); [reflexivity |].
  rewrite <- (map_id rows) at 1. apply Forall2_map_both. intros row Hin.
  apply project_row_cells; [apply (named_columns c fields cols ss Hr Hd Hn) |].
  apply (forallb_In _ _ _ Hrows Hin).
Qed.

(** X9.  With a description whose names are distinct texts and rows of the
    expected shape, [fetchall] of [GlueDictCursor] returns one dict per
    row, in the order of the rows, and each dict has exactly the column
    names as keys, in the order of the description, each with the value
    the row's "data" has for it, or [None]. *)
Theorem dict_fetchall_keys_rows (c : GlueCursor) (fields : list (string * pyval))
    (rows cols : list pyval) (ss : list string) :
  _closed c = false ->
  response c = PDict fields ->
  Py.lookup "results" fields = Some (PList rows) ->
  Py.lookup "description" fields = Some (PList cols) ->
  Forall2 named ss cols ->
  NoDup ss ->
  forallb row_shaped rows = true ->
  res (dict_fetchall c)
  = Return (map (fun row => map (fun s => (PStr s, cell row s)) ss) rows).
Proof.
  intros H Hr Hl Hd Hn Hnd Hrows.
  unfold dict_fetchall. unfold bind at 1. cbn [debug]. unfold bind at 1.
  rewrite (fetchall_records c fields rows cols ss H Hr Hl Hd Hn Hrows).
  unfold bind at 1, lift, Py.iter.
  rewrite (for_each_all dict_record
             (map (fun row => PList (map (cell row) ss)) rows)
             (map (fun row => map (fun s => (PStr s, cell row s)) ss) rows));
    [reflexivity |].
  apply Forall2_map_both. intros row _.
  apply dict_record_cells; [apply (named_columns c fields cols ss Hr Hd Hn) | exact Hnd].
Qed.

(** X10.  Under the same conditions and with at least one column,
    [fetchone] of [GlueDictCursor] positioned on row [i] returns that row
    as a dict keyed by the column names and moves the index to the next
    row; positioned past the last row it returns [None] and resets the
    index. *)
Theorem dict_fetchone_keys_row (c : GlueCursor) (fields : list (string * pyval))
    (rows cols : list pyval) (ss : list string) (i : nat) :
  _closed c = false ->
  response c = PDict fields ->
  Py.lookup "results" fields = Some (PList rows) ->
  Py.lookup "description" fields = Some (PList cols) ->
  Forall2 named ss cols ->
  NoDup ss -> ss <> [] ->
  forallb row_shaped rows = true ->
  let o := dict_fetchone (set_it (position i) c) in
  (forall row, nth_error rows i = Some row ->
     res o = Return (Some (map (fun s => (PStr s, cell row s)) ss))
     /\ after o = set_it (Some (i + 1)) c)
  /\ (nth_error rows i = None -> res o = Return None /\ after o = set_it None c).
Proof.
  intros H Hr Hl Hd Hn Hnd Hne Hrows o.
  assert (Ht : Py.truthy (response c) = true)
    by (rewrite Hr; apply (truthy_found _ _ _ Hl)).
  assert (Hget : Py.get (response c) "results" PNone = Return (PList rows))
    by (rewrite Hr; apply get_found, Hl).
  pose proof (named_columns c fields cols ss Hr Hd Hn) as Hc.
  assert (Hstep : dict_fetchone (set_it (position i) c)
                  = match nth_error rows i with
                    | Some row =>
                        mkOut (set_it (Some (i + 1)) c)
                          [[Lit "GlueDictCursor fetchone called"];
                           [Lit "GlueCursor fetchone called"]]
                          (Return (Some (map (fun s => (PStr s, cell row s)) ss)))
                    | None =>
                        mkOut (set_it None c)
                          [[Lit "GlueDictCursor fetchone called"];
                           [Lit "GlueCursor fetchone called"]]
                          (Return None)
                    end).
  { unfold dict_fetchone. unfold bind at 1. cbn [debug]. unfold bind at 1.
    rewrite (fetchone_at c i H Ht), Hget. unfold Py.index.
    destruct (nth_error rows i) as [row |] eqn:Erow; [| reflexivity].
    assert (Hin : row_shaped row = true)
      by (apply (forallb_In _ _ _ Hrows), (nth_error_In _ _ Erow)).
    rewrite (project_row_cells c row ss Hc Hin). cbn [res].
    assert (Hnz : Py.truthy (PList (map (cell row) ss)) = true)
      by (destruct ss; [contradiction | reflexivity]).
    rewrite Hnz. cbn [negb]. unfold bind at 1.
    assert (Hc' : res (columns (set_it (Some (i + 1)) c)) = Return (PList (map PStr ss)))
      by (rewrite (columns_reads c (set_it (Some (i + 1)) c) eq_refl); exact Hc).
    rewrite (dict_record_cells (set_it (Some (i + 1)) c) row ss Hc' Hnd).
    reflexivity. }
  subst o. rewrite Hstep. split.
  - intros row ->. split; reflexivity.
  - intros ->. split; reflexivity.
Qed.

(** ** [description()] and [columns] *)

Lemma item_is_get col k v : Py.item col k = Return v -> Py.get col k PNone = Return v.
Proof.
  destruct col as [| | | | | f]; try discriminate. unfold Py.item, Py.get.
  now destruct (Py.lookup k f).
Qed.

Lemma for_each_pairs c cols (nts : list (pyval * pyval)) :
  Forall2 (fun col nt =>
             Py.item col "name" = Return (fst nt)
             /\ Py.item col "type" = Return (snd nt)) cols nts ->
  for_each cols
    (fun col =>
       n <- lift (Py.item col "name") ;;
       t <- lift (Py.item col "type") ;;
       ret (PList [n; t])) c
  = mkOut c [] (Return (map (fun nt => PList [fst nt; snd nt]) nts)).
Proof.
  intros HF. apply for_each_all.
  induction HF as [| col nt cols nts [Hn Ht] _ IH]; cbn [map]; constructor.
  - unfold bind, lift, ret. now rewrite Hn, Ht.
  - exact IH.
Qed.

(** X11.  When every descriptor of the payload's description list is a
    dict with a "name" and a "type", [description()] returns the pairs
    [[name, type]] of the descriptors, in order, and [columns] returns the
    names alone, in the same order: the two accessors agree on the names
    and on their order. *)
Theorem description_agrees_with_columns (c : GlueCursor)
    (fields : list (string * pyval)) (cols : list pyval)
    (nts : list (pyval * pyval)) :
  response c = PDict fields ->
  Py.lookup "description" fields = Some (PList cols) ->
  Forall2 (fun col nt =>
             Py.item col "name" = Return (fst nt)
             /\ Py.item col "type" = Return (snd nt)) cols nts ->
  res (description c) = Return (PList (map (fun nt => PList [fst nt; snd nt]) nts))
  /\ res (columns c) = Return (PList (map fst nts)).
Proof.
  intros Hr Hd HF.
  assert (Ht : Py.truthy (response c) = true)
    by (rewrite Hr; apply (truthy_found _ _ _ Hd)).
  split.
  - unfold description. unfold bind at 1. cbn [debug]. unfold bind at 1, self.
    rewrite Ht. unfold bind at 1, lift at 1. rewrite Hr, (get_found _ _ _ _ Hd).
    unfold bind at 1, lift at 1. unfold Py.iter. unfold bind at 1.
    now rewrite (for_each_pairs c cols nts HF).
  - apply (columns_of_payload c fields cols _ Hr Hd).
    clear Hr Hd Ht. induction HF as [| col nt cols nts [Hn _] _ IH]; cbn [map]; constructor.
    + now apply item_is_get.
    + exact IH.
Qed.

(** ** A payload that is not a dict *)

Lemma get_not_dict v k d :
  (forall f, v <> PDict f) -> Py.get v k d = Raise AttributeError.
Proof.
  intros H. destruct v; try reflexivity. now contradiction (H fields).
Qed.

(** X12.  When the recorded payload is truthy and not a dict (a JSON
    list, number or text, as a noisy first line can be), [rowcount],
    [columns], [description()] and [fetchall] of both classes raise
    [AttributeError]; [fetchone] of both classes swallows it and returns
    [None]. *)
Theorem payload_not_a_dict (c : GlueCursor) :
  _closed c = false ->
  Py.truthy (response c) = true ->
  (forall f, response c <> PDict f) ->
  res (rowcount c) = Raise AttributeError
  /\ res (columns c) = Raise AttributeError
  /\ res (description c) = Raise AttributeError
  /\ res (fetchall c) = Raise AttributeError
  /\ res (dict_fetchall c) = Raise AttributeError
  /\ res (fetchone c) = Return PNone
  /\ res (dict_fetchone c) = Return None.
Proof.
  intros H Ht Hnd.
  assert (Hall : fetchall c
                 = mkOut c [[Lit "GlueCursor fetchall called"]] (Raise AttributeError)).
  { unfold fetchall, bind, debug, self, closed, lift. cbn.
    now rewrite H, Ht, (get_not_dict _ _ _ Hnd). }
  assert (Hone : fetchone c
                 = mkOut (set_it None c) [[Lit "GlueCursor fetchone called"]] (Return PNone)).
  { rewrite (fetchone_try c H Ht). cbv zeta.
    assert (E : fetchone_row (with_index c)
                = mkOut (with_index c) [] (Raise AttributeError)).
    { unfold fetchone_row, bind, self, lift. cbn.
      replace (response (with_index c)) with (response c)
        by (unfold with_index; now destruct (it_unset (_it c))).
      now rewrite (get_not_dict _ _ _ Hnd). }
    rewrite E. cbn. f_equal. unfold with_index. now destruct (it_unset (_it c)). }
  repeat split.
  - now rewrite rowcount_of_payload, Ht, (get_not_dict _ _ _ Hnd).
  - unfold columns, bind, self, lift. cbn. now rewrite Ht, (get_not_dict _ _ _ Hnd).
  - unfold description, bind, self, lift, debug. cbn.
    now rewrite Ht, (get_not_dict _ _ _ Hnd).
  - now rewrite Hall.
  - unfold dict_fetchall. unfold bind at 1. cbn [debug]. unfold bind at 1.
    now rewrite Hall.
  - now rewrite Hone.
  - unfold dict_fetchone. unfold bind at 1. cbn [debug]. unfold bind at 1.
    now rewrite Hone.
Qed.

(** ** The comment header: putting it on and taking it off *)

Lemma drop_append s t : PyStr.drop (String.length s) (s ++ t)%string = t.
Proof. induction s as [| a s IH]; [reflexivity | exact IH]. Qed.

Lemma drop_drop a b s : PyStr.drop (a + b) s = PyStr.drop b (PyStr.drop a s).
Proof.
  revert s. induction a as [| a IH]; intros s; [reflexivity |].
  destruct s as [| x s]; cbn [Nat.add PyStr.drop]; [now destruct b | apply IH].
Qed.

Lemma prefix_step x p a t :
  String.prefix (String x p) (String a t)
  = if ascii_dec x a then String.prefix p t else false.
Proof. reflexivity. Qed.

Lemma one_line_cons a s : one_line (String a s) -> a <> PyStr.nl /\ one_line s.
Proof.
  unfold one_line. cbn. intros H. split.
  - intros ->. apply H. now left.
  - intros Hin. apply H. now right.
Qed.

Lemma header_end_not_inside s rest :
  one_line s ->
  s <> EmptyString ->
  String.prefix PyStr.header_end (s ++ PyStr.header_end ++ rest)%string = false.
Proof.
  intros Hs Hne. destruct s as [| a s]; [contradiction |].
  apply one_line_cons in Hs. destruct Hs as [Ha Hs].
  unfold PyStr.header_end. cbn [append]. rewrite prefix_step.
  destruct (ascii_dec "*" a) as [<- | _]; [| reflexivity].
  destruct s as [| b s]; cbn [append]; rewrite prefix_step.
  - destruct (ascii_dec "/" "*"); [discriminate | reflexivity].
  - destruct (ascii_dec "/" b) as [<- | _]; [| reflexivity].
    apply one_line_cons in Hs. destruct Hs as [_ Hs].
    destruct s as [| c0 s]; cbn [append]; rewrite prefix_step.
    + destruct (ascii_dec PyStr.nl "*") as [E | _]; [| reflexivity].
      vm_compute in E. discriminate.
    + apply one_line_cons in Hs. destruct Hs as [Hc _].
      destruct (ascii_dec PyStr.nl c0) as [<- | _]; [contradiction | reflexivity].
Qed.

Lemma index_step p a t :
  String.index 0 p (String a t)
  = if String.prefix p (String a t) then Some 0
    else match String.index 0 p t with
         | Some n => Some (S n)
         | None => None
         end.
Proof. reflexivity. Qed.

Lemma first_header_end s rest :
  one_line s ->
  PyStr.find_opt PyStr.header_end (s ++ PyStr.header_end ++ rest)%string
  = Some (String.length s).
Proof.
  unfold PyStr.find_opt. induction s as [| a s IH]; intros Hs.
  - unfold PyStr.header_end. cbn [append]. rewrite index_step, !prefix_step.
    destruct (ascii_dec "*" "*"); [| congruence].
    destruct (ascii_dec "/" "/"); [| congruence].
    destruct (ascii_dec PyStr.nl PyStr.nl); [| congruence].
    now destruct rest.
  - pose proof (header_end_not_inside (String a s) rest Hs ltac:(discriminate)) as Hp.
    cbn [append] in Hp. cbn [append String.length]. rewrite index_step, Hp.
    apply one_line_cons in Hs. now rewrite (IH (proj2 Hs)).
Qed.

Section Header.

Variable json_loads : string -> result pyval.
Variable dedent : string -> string.

(** X13.  A header [/*], a comment of one line, [*/] and a line feed,
    put in front of a statement and taken off again by
    [remove_comments_header], gives back the statement, whatever the
    statement is; so [execute] stores and submits the statement alone. *)
Theorem header_round_trip (h rest : string) :
  one_line h ->
  header_removed ("/*" ++ h ++ PyStr.header_end ++ rest)%string = Return rest
  /\ forall c remote,
       _closed c = false -> _is_running c = false ->
       let o := execute json_loads dedent
                  ("/*" ++ h ++ PyStr.header_end ++ rest)%string remote c in
       sql (after o) = PStr rest
       /\ code (after o) = PStr (submission_code dedent rest).
Proof.
  intros Hh.
  assert (Hrm : header_removed ("/*" ++ h ++ PyStr.header_end ++ rest)%string = Return rest).
  { unfold header_removed.
    assert (Hone : one_line ("/*" ++ h)).
    { unfold one_line in *. cbn. intros [E | [E | Hin]]; [| | contradiction].
      - vm_compute in E. discriminate.
      - vm_compute in E. discriminate. }
    pose proof (first_header_end ("/*" ++ h) rest Hone) as E.
    cbn [append] in E. cbn [append PyStr.take String.eqb].
    rewrite !Ascii.eqb_refl. cbn [append] in *. rewrite E.
    cbn [String.length]. rewrite drop_drop. cbn [PyStr.drop].
    rewrite drop_append. reflexivity. }
  split; [exact Hrm |].
  intros c remote H H' o.
  destruct (execute_submission json_loads dedent c _ rest remote H H' Hrm) as (E1 & E2 & _).
  now split.
Qed.

End Header.

(** ** Outputs that lack what [execute] reads *)

Lemma text_plain_raises output e : text_plain output = Raise e -> e = AttributeError.
Proof.
  assert (Hstrip : forall t, py_strip t = Raise e -> e = AttributeError).
  { intros t. destruct t; cbn; intros E; try discriminate E; now injection E as <-. }
  unfold text_plain, Py.get.
  destruct output as [| | | | | f]; try (intros E; now injection E as <-).
  destruct (Py.lookup "Data" f) as [d |].
  - destruct d as [| | | | | g]; try (intros E; now injection E as <-).
    destruct (Py.lookup "TextPlain" g); apply Hstrip.
  - cbn. intros E. now injection E as <-.
Qed.

Lemma py_find_raises ev sub :
  (forall s, ev <> PStr s) -> py_find ev sub = Raise AttributeError.
Proof.
  intros H. destruct ev; try reflexivity. now contradiction (H s).
Qed.

Section Malformed.

Variable json_loads : string -> result pyval.
Variable dedent : string -> string.
Variable AdapterResponse : string -> pyval -> pyval -> result pyval.

Lemma settle_ok_no_text r c output status e :
  state c = PStr GlueCursorState.AVAILABLE ->
  statement_field r "Output" (PDict []) = Return output ->
  Py.get output "Status" PNone = Return status ->
  Py.eq_str status "ok" = true ->
  text_plain output = Raise e ->
  settle json_loads r c = mkOut (set_is_running false (set_it None c)) [] (Raise e).
Proof.
  intros Hs Ho Hst Hok Ht.
  unfold settle, on_available, record_payload, bind, try_except, self, _post,
    update, raise, ret, lift, debug.
  cbn. rewrite Hs. cbn. rewrite Ho, Hst, Hok, Ht. reflexivity.
Qed.

Lemma settle_not_ok_no_text r c output status ev :
  state c = PStr GlueCursorState.AVAILABLE ->
  statement_field r "Output" (PDict []) = Return output ->
  Py.get output "Status" PNone = Return status ->
  Py.eq_str status "ok" = false ->
  Py.get output "ErrorValue" PNone = Return ev ->
  (forall s, ev <> PStr s) ->
  settle json_loads r c
  = mkOut (set_is_running false (set_it None c)) [] (Raise AttributeError).
Proof.
  intros Hs Ho Hst Hok Hev Hnt.
  unfold settle, on_available, report_not_ok, bind, self, _post,
    update, raise, ret, lift, debug.
  cbn. rewrite Hs. cbn. rewrite Ho, Hst, Hok, Hev, (py_find_raises ev _ Hnt). reflexivity.
Qed.

(** X14.  When the statement comes back [AVAILABLE] with status "ok" but
    the output has no text to parse ("Data" is not a dict, "TextPlain" is
    missing or is not a text), [execute] raises [AttributeError]: the
    handler of the first [try] reads the text again, outside the second
    [try].  The cursor is left idle with no result. *)
Theorem execute_ok_without_text (c : GlueCursor) (text stripped : string)
    (r output status : pyval) (e : exn) :
  _closed c = false -> _is_running c = false ->
  header_removed text = Return stripped ->
  statement_field r "State" (PStr GlueCursorState.WAITING)
  = Return (PStr GlueCursorState.AVAILABLE) ->
  statement_field r "Output" (PDict []) = Return output ->
  Py.get output "Status" PNone = Return status ->
  Py.eq_str status "ok" = true ->
  text_plain output = Raise e ->
  let o := execute json_loads dedent text (Return r) c in
  res o = Raise AttributeError
  /\ _is_running (after o) = false
  /\ response (after o) = PNone.
Proof.
  intros H H' Hh Hs Ho Hst Hok Ht o. subst o.
  rewrite (execute_answered json_loads dedent c text stripped r _ H H' Hh Hs).
  rewrite (settle_ok_no_text r (answered dedent stripped (PStr GlueCursorState.AVAILABLE) c)
             output status e eq_refl Ho Hst Hok Ht).
  rewrite (text_plain_raises output e Ht). repeat split.
Qed.

(** X15.  When the statement comes back [AVAILABLE] with a status other
    than "ok" and the output's "ErrorValue" is missing or is not a text,
    [execute] raises [AttributeError] instead of the database failure; an
    answer with no "Output" at all is such a case.  The cursor is left
    idle with no result. *)
Theorem execute_not_ok_without_error_text (c : GlueCursor) (text stripped : string)
    (r output status ev : pyval) :
  _closed c = false -> _is_running c = false ->
  header_removed text = Return stripped ->
  statement_field r "State" (PStr GlueCursorState.WAITING)
  = Return (PStr GlueCursorState.AVAILABLE) ->
  statement_field r "Output" (PDict []) = Return output ->
  Py.get output "Status" PNone = Return status ->
  Py.eq_str status "ok" = false ->
  Py.get output "ErrorValue" PNone = Return ev ->
  (forall s, ev <> PStr s) ->
  let o := execute json_loads dedent text (Return r) c in
  res o = Raise AttributeError
  /\ _is_running (after o) = false
  /\ response (after o) = PNone.
Proof.
  intros H H' Hh Hs Ho Hst Hok Hev Hnt o. subst o.
  rewrite (execute_answered json_loads dedent c text stripped r _ H H' Hh Hs).
  rewrite (settle_not_ok_no_text r
             (answered dedent stripped (PStr GlueCursorState.AVAILABLE) c)
             output status ev eq_refl Ho Hst Hok Hev Hnt).
  repeat split.
Qed.

(** ** [get_response] *)

(** X16.  [get_response] on a cursor that never ran [execute] raises
    [AttributeError] ([__init__] does not set [statement]).  After an
    [execute] that got past its guards and the header, whatever became of
    the statement, it builds the [AdapterResponse] from the literal
    message [r["State"]], the text without its header and the status
    the service reports now; it leaves the cursor as it is. *)
Theorem get_response_after_execute (c : GlueCursor) (text stripped : string)
    (remote : result pyval) (uuid : string) (conn : GlueConnection)
    (status : result pyval) :
  _closed c = false -> _is_running c = false ->
  header_removed text = Return stripped ->
  let c' := after (execute json_loads dedent text remote c) in
  res (get_response AdapterResponse status (__init__ uuid conn)) = Raise AttributeError
  /\ res (get_response AdapterResponse status c')
     = match status with
       | Return r => AdapterResponse response_message (PStr stripped) r
       | Raise e => Raise e
       end
  /\ after (get_response AdapterResponse status c') = c'.
Proof.
  intros H H' Hh c'.
  destruct (execute_submission json_loads dedent c text stripped remote H H' Hh)
    as (Hsql & _ & Hstmt).
  fold c' in Hsql, Hstmt.
  split; [reflexivity |]. split; [| apply get_response_keeps].
  unfold get_response, bind, debug, self, lift, raise. cbn.
  destruct (statement c') as [stmt |]; [| discriminate].
  rewrite Hsql. destruct status as [r | e]; [| reflexivity].
  now destruct (AdapterResponse response_message (PStr stripped) r).
Qed.

(** ** A new result starts from its first row *)



End Malformed.

(** ** What a recorded payload gives, and a header that does not end *)

Section Payload.

Variable json_loads : string -> result pyval.
Variable dedent : string -> string.

(** [execute] when the payload is parsed, from the whole text or from its
    first line. *)
Lemma execute_recorded_either c text stripped r output status plain payload :
  _closed c = false -> _is_running c = false ->
  header_removed text = Return stripped ->
  statement_field r "State" (PStr GlueCursorState.WAITING)
  = Return (PStr GlueCursorState.AVAILABLE) ->
  statement_field r "Output" (PDict []) = Return output ->
  Py.get output "Status" PNone = Return status ->
  Py.eq_str status "ok" = true ->
  text_plain output = Return plain ->
  (json_loads plain = Return payload
   \/ exists e chunk others,
        json_loads plain = Raise e
        /\ PyStr.split PyStr.nl plain = chunk :: others
        /\ json_loads chunk = Return payload) ->
  execute json_loads dedent text (Return r) c
  = mkOut (set_response payload
             (set_is_running false
                (set_it None (answered dedent stripped (PStr GlueCursorState.AVAILABLE) c))))
      (submission_logs dedent stripped ++ [[Fmt r]]) (Return payload).
Proof.
  intros H H' Hh Hs Ho Hst Hok Ht Hparse.
  rewrite (execute_answered json_loads dedent c text stripped r _ H H' Hh Hs).
  destruct Hparse as [Hp | (e & chunk & others & Hp & Hc & Hp')].
  - now rewrite (settle_ok_parsed json_loads r
                   (answered dedent stripped (PStr GlueCursorState.AVAILABLE) c)
                   output status plain payload eq_refl Ho Hst Hok Ht Hp).
  - now rewrite (settle_ok_first_line json_loads r
                   (answered dedent stripped (PStr GlueCursorState.AVAILABLE) c)
                   output status plain chunk others e payload eq_refl Ho Hst Hok Ht Hp Hc Hp').
Qed.

(** C6, as amended.  After an [execute] that recorded the payload (parsed
    from the whole text, or from its first line when the whole text does
    not parse): [execute] returns the payload and the cursor holds it;
    [rowcount] is the payload's own "rowcount" field ([None] when the
    payload is falsy or has no such field), not a count of its rows;
    [columns] is the list of the "name" fields of the description, in
    order; and, when the names are texts and the rows are dicts whose
    "data", when present, is a dict, [fetchall] returns a list with one
    record per row of "results", each record the row's values in the order
    of the description.  So the length of the list [fetchall] returns is
    [rowcount] exactly when the payload's "rowcount" field is the number
    of its rows. *)
Theorem execute_records_payload (c : GlueCursor) (text stripped : string)
    (r output status : pyval) (plain : string) (payload : pyval) :
  _closed c = false -> _is_running c = false ->
  header_removed text = Return stripped ->
  statement_field r "State" (PStr GlueCursorState.WAITING)
  = Return (PStr GlueCursorState.AVAILABLE) ->
  statement_field r "Output" (PDict []) = Return output ->
  Py.get output "Status" PNone = Return status ->
  Py.eq_str status "ok" = true ->
  text_plain output = Return plain ->
  (json_loads plain = Return payload
   \/ exists e chunk others,
        json_loads plain = Raise e
        /\ PyStr.split PyStr.nl plain = chunk :: others
        /\ json_loads chunk = Return payload) ->
  let o := execute json_loads dedent text (Return r) c in
  res o = Return payload
  /\ response (after o) = payload
  /\ res (rowcount (after o))
     = (if Py.truthy payload then Py.get payload "rowcount" PNone else Return PNone)
  /\ (forall fields cols names,
        payload = PDict fields ->
        Py.lookup "description" fields = Some (PList cols) ->
        Forall2 (fun col n => Py.get col "name" PNone = Return n) cols names ->
        res (columns (after o)) = Return (PList names))
  /\ (forall fields rows cols ss,
        payload = PDict fields ->
        Py.lookup "results" fields = Some (PList rows) ->
        Py.lookup "description" fields = Some (PList cols) ->
        Forall2 named ss cols ->
        forallb row_shaped rows = true ->
        exists recs,
          res (fetchall (after o)) = Return (PList recs)
          /\ recs = map (fun row => PList (map (cell row) ss)) rows
          /\ length recs = length rows
          /\ forall n, Py.lookup "rowcount" fields = Some (PInt n) ->
               res (rowcount (after o)) = Return (PInt n)
               /\ (n = Z.of_nat (length recs) <-> n = Z.of_nat (length rows))).
Proof.
  intros H H' Hh Hs Ho Hst Hok Ht Hparse o. subst o.
  rewrite (execute_recorded_either c text stripped r output status plain payload
             H H' Hh Hs Ho Hst Hok Ht Hparse).
  cbn [res after].
  set (c' := set_response payload _).
  assert (Hr : response c' = payload) by reflexivity.
  assert (Hopen : _closed c' = false) by exact H.
  split; [reflexivity |]. split; [reflexivity |].
  split; [now rewrite rowcount_of_payload, Hr |].
  split.
  - intros fields cols names -> Hd Hn. now apply (columns_of_payload c' fields cols).
  - intros fields rows cols ss -> Hl Hd Hn Hrows.
    exists (map (fun row => PList (map (cell row) ss)) rows).
    rewrite (fetchall_records c' fields rows cols ss Hopen Hr Hl Hd Hn Hrows).
    split; [reflexivity |]. split; [reflexivity |].
    split; [apply length_map |]. intros n Hrc.
    rewrite rowcount_of_payload, Hr, (truthy_found _ _ _ Hl), (get_found _ _ _ _ Hrc).
    split; [reflexivity | now rewrite length_map].
Qed.

(** C8.  A text that begins with [/*] and has no [*/] directly followed
    by a line feed, as when the comment is closed on the line of the
    statement, makes [remove_comments_header] raise [ValueError]
    ([sql.index] finds nothing); [execute] raises it before it stores or
    submits anything, and leaves the cursor as it was. *)
Theorem execute_unterminated_header_raises (c : GlueCursor) (text : string)
    (remote : result pyval) :
  _closed c = false -> _is_running c = false ->
  String.prefix "/*" text = true ->
  PyStr.find_opt PyStr.header_end text = None ->
  header_removed text = Raise ValueError
  /\ res (execute json_loads dedent text remote c) = Raise ValueError
  /\ after (execute json_loads dedent text remote c) = c.
Proof.
  intros H H' Hp He.
  pose proof (header_unterminated text Hp He) as Hh.
  rewrite (execute_bad_header json_loads dedent c text remote ValueError H H' Hh).
  repeat split. exact Hh.
Qed.

End Payload.

(** ** The further facts, on the sample session *)

Lemma execute_cancelled_witness :
  res (execute Sample.loads Sample.dedent "select 1"
         (Return (Sample.bare_reply GlueCursorState.CANCELLED)) Sample.fresh)
  = Raise (DatabaseException
             [Lit "Statement "; Fmt (PStr "session-1"); Lit "."; Fmt PNone;
              Lit " cancelled."]).
Proof.
  exact (proj1 (execute_cancelled Sample.loads Sample.dedent Sample.fresh
                  "select 1" "select 1" (Sample.bare_reply GlueCursorState.CANCELLED)
                  GlueCursorState.CANCELLED eq_refl eq_refl eq_refl eq_refl
                  (or_introl eq_refl))).
Defined.

Lemma running_cursor_is_stuck_witness :
  _is_running (perform_all Sample.loads Sample.dedent Sample.adapter_response
                 [CallFetchone; CallFetchall; CallDescription] Sample.running) = true
  /\ res (execute Sample.loads Sample.dedent "select 2"
            (Sample.answer GlueCursorState.AVAILABLE (Sample.ok_output Sample.payload_text))
            (perform_all Sample.loads Sample.dedent Sample.adapter_response
               [CallFetchone; CallFetchall; CallDescription] Sample.running))
     = Raise (InternalException (Some "CursorAlreadyRunning")).
Proof.
  destruct (running_cursor_is_stuck Sample.loads Sample.dedent Sample.adapter_response
              Sample.running [CallFetchone; CallFetchall; CallDescription] "select 2"
              (Sample.answer GlueCursorState.AVAILABLE (Sample.ok_output Sample.payload_text))
              eq_refl) as [T1 _].
  split; [exact T1 | reflexivity].
Defined.

Lemma terminal_state_stops_witness :
  let o := execute Sample.loads Sample.dedent "select 1"
             (Sample.answer GlueCursorState.AVAILABLE (Sample.ok_output "oops"))
             Sample.fresh in
  _is_running (after o) = false /\ _closed (after o) = false.
Proof.
  cbv zeta.
  destruct (terminal_state_stops Sample.loads Sample.dedent Sample.fresh
              "select 1" "select 1"
              (Sample.reply GlueCursorState.AVAILABLE (Sample.ok_output "oops"))
              GlueCursorState.AVAILABLE eq_refl eq_refl eq_refl eq_refl
              (or_introl eq_refl)) as (T1 & T2 & _).
  split; [exact T1 | exact T2].
Defined.

Lemma unfinished_statement_leaves_running_witness :
  let o := execute Sample.loads Sample.dedent "select 1" (Return Sample.empty_reply)
             Sample.fresh in
  res o = Return PNone /\ _is_running (after o) = true /\ response (after o) = PNone.
Proof.
  exact (proj1 (unfinished_statement_leaves_running Sample.loads Sample.dedent
                  Sample.fresh "select 1" "select 1" eq_refl eq_refl eq_refl)
           Sample.empty_reply (PStr GlueCursorState.WAITING)
           eq_refl eq_refl eq_refl eq_refl eq_refl).
Defined.

Lemma sample_named : Forall2 named Sample.names Sample.described.
Proof. repeat constructor. Qed.

Lemma sample_distinct : NoDup Sample.names.
Proof.
  repeat constructor; cbn; intuition discriminate.
Qed.

Lemma fetchall_projects_witness :
  res (fetchall Sample.loaded)
  = Return (PList [PList [PInt 1; PStr "a"]; PList [PNone; PNone]]).
Proof.
  exact (fetchall_projects Sample.loaded Sample.fields Sample.rows Sample.described
           Sample.names eq_refl eq_refl eq_refl eq_refl sample_named eq_refl).
Defined.

Lemma iterate_yields_records_witness :
  iterate 3 Sample.loaded = Some (Sample.loaded, Return Sample.records).
Proof.
  apply (iterate_yields_records Sample.loaded Sample.fields Sample.rows Sample.records
           eq_refl eq_refl eq_refl eq_refl eq_refl).
  repeat constructor.
Defined.

Lemma iterate_without_columns_witness :
  let c := Sample.holding_more Sample.columnless_text in
  res (fetchall c) = Return (PList [PList []; PList []])
  /\ iterate 1 c = Some (set_it (Some 1) c, Return []).
Proof.
  cbv zeta.
  destruct (iterate_without_columns (Sample.holding_more Sample.columnless_text)
              Sample.columnless_fields _ _ eq_refl eq_refl eq_refl eq_refl eq_refl)
    as (T1 & _ & _ & T4).
  split; [exact T1 | exact T4].
Defined.

Lemma dict_fetchall_keys_rows_witness :
  res (dict_fetchall Sample.loaded)
  = Return [[(PStr "id", PInt 1); (PStr "label", PStr "a")];
            [(PStr "id", PNone); (PStr "label", PNone)]].
Proof.
  exact (dict_fetchall_keys_rows Sample.loaded Sample.fields Sample.rows Sample.described
           Sample.names eq_refl eq_refl eq_refl eq_refl sample_named sample_distinct
           eq_refl).
Defined.

Lemma dict_fetchone_keys_row_witness :
  res (dict_fetchone Sample.advanced)
  = Return (Some [(PStr "id", PNone); (PStr "label", PNone)]).
Proof.
  destruct (dict_fetchone_keys_row Sample.loaded Sample.fields Sample.rows Sample.described
              Sample.names 1 eq_refl eq_refl eq_refl eq_refl sample_named sample_distinct
              ltac:(discriminate) eq_refl) as [T _].
  exact (proj1 (T _ eq_refl)).
Defined.

Lemma description_agrees_with_columns_witness :
  res (description Sample.loaded)
  = Return (PList [PList [PStr "id"; PStr "int"]; PList [PStr "label"; PStr "string"]])
  /\ res (columns Sample.loaded) = Return (PList [PStr "id"; PStr "label"]).
Proof.
  apply (description_agrees_with_columns Sample.loaded Sample.fields Sample.described
           [(PStr "id", PStr "int"); (PStr "label", PStr "string")] eq_refl eq_refl).
  repeat constructor.
Defined.

Lemma payload_not_a_dict_witness :
  let c := Sample.holding_more "[1, 2]" in
  response c = PList [PInt 1; PInt 2]
  /\ res (rowcount c) = Raise AttributeError
  /\ res (fetchall c) = Raise AttributeError
  /\ res (fetchone c) = Return PNone.
Proof.
  cbv zeta.
  destruct (payload_not_a_dict (Sample.holding_more "[1, 2]") eq_refl eq_refl
              ltac:(discriminate)) as (T1 & _ & _ & T4 & _ & T6 & _).
  repeat split; assumption.
Defined.

Lemma header_round_trip_witness :
  header_removed ("/*" ++ " {app: dbt} " ++ PyStr.header_end ++ "select 1")%string
  = Return "select 1".
Proof.
  apply (header_round_trip Sample.loads Sample.dedent " {app: dbt} " "select 1").
  unfold one_line. cbn. intuition discriminate.
Defined.

Lemma execute_ok_without_text_witness :
  res (execute Sample.loads Sample.dedent "select 1"
         (Sample.answer GlueCursorState.AVAILABLE (PDict [("Status", PStr "ok")]))
         Sample.fresh)
  = Raise AttributeError.
Proof.
  exact (proj1 (execute_ok_without_text Sample.loads Sample.dedent Sample.fresh
                  "select 1" "select 1"
                  (Sample.reply GlueCursorState.AVAILABLE (PDict [("Status", PStr "ok")]))
                  (PDict [("Status", PStr "ok")]) (PStr "ok") AttributeError
                  eq_refl eq_refl eq_refl eq_refl eq_refl eq_refl eq_refl eq_refl)).
Defined.

Lemma execute_not_ok_without_error_text_witness :
  res (execute Sample.loads Sample.dedent "select 1"
         (Return (Sample.bare_reply GlueCursorState.AVAILABLE)) Sample.fresh)
  = Raise AttributeError.
Proof.
  refine (proj1 (execute_not_ok_without_error_text Sample.loads Sample.dedent Sample.fresh
                   "select 1" "select 1" (Sample.bare_reply GlueCursorState.AVAILABLE)
                   (PDict []) PNone PNone
                   eq_refl eq_refl eq_refl eq_refl eq_refl eq_refl eq_refl eq_refl _)).
  discriminate.
Defined.

Lemma get_response_after_execute_witness :
  res (get_response Sample.adapter_response (Return (Sample.bare_reply "RUNNING"))
         Sample.fresh)
  = Raise AttributeError
  /\ res (get_response Sample.adapter_response (Return (Sample.bare_reply "RUNNING"))
            (after (execute Sample.loads Sample.dedent
                      ("/* nightly */" ++ Sample.nl ++ "select 1")%string
                      (Sample.answer GlueCursorState.RUNNING (PDict [])) Sample.fresh)))
     = Return (PDict [("_message", PStr response_message); ("code", PStr "select 1");
                      ("rest", Sample.bare_reply "RUNNING")]).
Proof.
  destruct (get_response_after_execute Sample.loads Sample.dedent Sample.adapter_response
              Sample.fresh ("/* nightly */" ++ Sample.nl ++ "select 1")%string "select 1"
              (Sample.answer GlueCursorState.RUNNING (PDict []))
              "cursor-1" Sample.conn (Return (Sample.bare_reply "RUNNING"))
              eq_refl eq_refl eq_refl) as (T1 & T2 & _).
  split; [exact T1 | exact T2].
Defined.


Lemma execute_records_payload_witness :
  let o := execute Sample.loads Sample.dedent "select 1"
             (Sample.answer GlueCursorState.AVAILABLE (Sample.ok_output Sample.payload_text))
             Sample.fresh in
  res o = Return Sample.payload
  /\ res (rowcount (after o)) = Return (PInt 2)
  /\ res (columns (after o)) = Return (PList [PStr "id"; PStr "label"])
  /\ res (fetchall (after o))
     = Return (PList [PList [PInt 1; PStr "a"]; PList [PNone; PNone]]).
Proof.
  pose proof (execute_records_payload Sample.loads Sample.dedent Sample.fresh
                "select 1" "select 1"
                (Sample.reply GlueCursorState.AVAILABLE (Sample.ok_output Sample.payload_text))
                (Sample.ok_output Sample.payload_text) (PStr "ok")
                Sample.payload_text Sample.payload
                eq_refl eq_refl eq_refl eq_refl eq_refl eq_refl eq_refl eq_refl
                (or_introl eq_refl)) as T.
  cbv zeta in T. destruct T as (T1 & _ & T3 & T4 & T5). cbv zeta.
  split; [exact T1 |]. split; [exact T3 |]. split.
  - apply (T4 Sample.fields Sample.described [PStr "id"; PStr "label"] eq_refl eq_refl).
    repeat constructor.
  - destruct (T5 Sample.fields Sample.rows Sample.described Sample.names
                eq_refl eq_refl eq_refl sample_named eq_refl) as (recs & Hall & -> & _).
    exact Hall.
Defined.

(** C8, failing input: a comment closed on the line of the statement. *)
Lemma execute_unterminated_header_raises_witness :
  header_removed "/* nightly */ select 1" = Raise ValueError
  /\ res (execute Sample.loads Sample.dedent "/* nightly */ select 1"
            (Sample.answer GlueCursorState.AVAILABLE (Sample.ok_output Sample.payload_text))
            Sample.fresh)
     = Raise ValueError.
Proof.
  destruct (execute_unterminated_header_raises Sample.loads Sample.dedent Sample.fresh
              "/* nightly */ select 1"
              (Sample.answer GlueCursorState.AVAILABLE (Sample.ok_output Sample.payload_text))
              eq_refl eq_refl eq_refl eq_refl) as (T1 & T2 & _).
  split; [exact T1 | exact T2].
Defined.

(** C8, a second input: the first [*/] followed by a line feed closes a
    later comment, and the statement before it is removed with the
    header. *)
Lemma header_removal_takes_a_statement :
  header_removed ("/* a */ delete from t; /* b */" ++ Sample.nl ++ "select 2")%string
  = Return "select 2".
Proof. vm_compute. reflexivity. Qed.
